(** * workshop-bonus: [utils.py]

    A shallow embedding of the three functions of [utils.py]
    ([extract_agent_response], [create_logs_database], [execute_query])
    together with models of the parts of the Python runtime and of the
    libraries they call ([str]/[repr], attribute access, [json.load],
    [datetime.strptime], the [sqlite3] module), followed by the properties
    of the specification settled against them. *)

From Stdlib Require Import String Ascii List ZArith NArith Bool Lia.
From Stdlib Require Import DecimalString Sorted.
Import ListNotations.

Set Warnings "-register-all".
Local Open Scope string_scope.
Local Open Scope Z_scope.

(** ** Exceptions and outcomes *)

Module Py.

(** The exception classes that the modelled code can meet. *)
Inductive exn_class :=
| AttributeError
| TypeError
| KeyError
| IndexError
| ValueError
| OverflowError
| FileNotFoundError
| JSONDecodeError
| OperationalError
| ProgrammingError
| OtherError (name : string).

(** An exception instance: its class and what [str(e)] shows. *)
Record exn := mk_exn { exn_cls : exn_class; exn_msg : string }.

(** What evaluating a Python expression or call produces. *)
Inductive outcome (A : Type) :=
| Return (a : A)
| Raise (e : exn).
Arguments Return {A} a.
Arguments Raise {A} e.

Definition bind {A B} (m : outcome A) (k : A -> outcome B) : outcome B :=
  match m with
  | Return a => k a
  | Raise e => Raise e
  end.

(** [try: m  except Exception as e: h e] *)
Definition try_except {A} (m : outcome A) (h : exn -> outcome A) : outcome A :=
  match m with
  | Return a => Return a
  | Raise e => h e
  end.

Definition is_file_not_found (e : exn) : bool :=
  match exn_cls e with
  | FileNotFoundError => true
  | _ => false
  end.

End Py.
Export Py.

Notation "x <- m ;; k" := (bind m (fun x => k))
  (at level 61, m at next level, right associativity).

(** ** Python values *)

(** The attributes of an instance of a user-defined class that the code
    looks at: its data attributes, what calling [obj.get()] without an
    argument does when the class defines a [get] method, and what
    [str(obj)] and [repr(obj)] do. *)
Record obj_data (V : Type) := mk_obj {
  obj_module : string;
  obj_class : string;
  obj_attrs : list (string * V);
  obj_get : option (outcome V);
  obj_str : outcome string;
  obj_repr : outcome string
}.
Arguments mk_obj {V}.
Arguments obj_module {V}.
Arguments obj_class {V}.
Arguments obj_attrs {V}.
Arguments obj_get {V}.
Arguments obj_str {V}.
Arguments obj_repr {V}.

(** The universe of objects: what [json.load] produces (floats apart) and
    instances of user-defined classes.  A dict keeps its items in insertion
    order. *)
Inductive value :=
| VNone
| VBool (b : bool)
| VInt (n : Z)
| VStr (s : string)
| VList (l : list value)
| VDict (items : list (value * value))
| VObj (o : obj_data value).

(** *** Strings *)

Definition str_of_Z (n : Z) : string :=
  NilZero.string_of_int (Z.to_int n).

Definition str_of_nat (n : nat) : string := str_of_Z (Z.of_nat n).

Fixpoint join (sep : string) (parts : list string) : string :=
  match parts with
  | [] => ""
  | [p] => p
  | p :: rest => p ++ sep ++ join sep rest
  end.

Fixpoint str_mem (c : ascii) (s : string) : bool :=
  match s with
  | EmptyString => false
  | String c' s' => Ascii.eqb c c' || str_mem c s'
  end.

Fixpoint starts_with (p s : string) : bool :=
  match p, s with
  | EmptyString, _ => true
  | String a p', String b s' => Ascii.eqb a b && starts_with p' s'
  | String _ _, EmptyString => false
  end.


Definition hex_digit (n : N) : ascii :=
  if (n <? 10)%N then ascii_of_N (48 + n) else ascii_of_N (87 + n).

Definition quote1 : ascii := "'"%char.
Definition quote2 : ascii := ascii_of_N 34.
Definition backslash : ascii := ascii_of_N 92.

(** [repr] of a [str]: the quote is ['] unless the text has a ['] and no
    double quote; the quote, the backslash and the control characters are
    escaped.  Bytes above 127 stand for encoded printable text and are
    copied. *)
Fixpoint repr_escape (q : ascii) (s : string) : string :=
  match s with
  | EmptyString => EmptyString
  | String c s' =>
      let n := N_of_ascii c in
      let rest := repr_escape q s' in
      if Ascii.eqb c q || Ascii.eqb c backslash then String backslash (String c rest)
      else if (n =? 9)%N then String backslash (String "t" rest)
      else if (n =? 10)%N then String backslash (String "n" rest)
      else if (n =? 13)%N then String backslash (String "r" rest)
      else if (n <? 32)%N || (n =? 127)%N then
        String backslash (String "x" (String (hex_digit (n / 16)) (String (hex_digit (n mod 16)) rest)))
      else String c rest
  end.

Definition repr_str (s : string) : string :=
  let q := if str_mem quote1 s && negb (str_mem quote2 s) then quote2 else quote1 in
  String q (repr_escape q s ++ String q EmptyString).

(** *** [repr], [str], [type] *)

Fixpoint py_repr (v : value) : outcome string :=
  match v with
  | VNone => Return "None"
  | VBool true => Return "True"
  | VBool false => Return "False"
  | VInt n => Return (str_of_Z n)
  | VStr s => Return (repr_str s)
  | VList l =>
      parts <- (fix go (l : list value) : outcome (list string) :=
                  match l with
                  | [] => Return []
                  | x :: r => sx <- py_repr x ;; sr <- go r ;; Return (sx :: sr)
                  end) l ;;
      Return ("[" ++ join ", " parts ++ "]")
  | VDict items =>
      parts <- (fix go (l : list (value * value)) : outcome (list string) :=
                  match l with
                  | [] => Return []
                  | (k, x) :: r =>
                      sk <- py_repr k ;; sx <- py_repr x ;; sr <- go r ;;
                      Return ((sk ++ ": " ++ sx) :: sr)
                  end) items ;;
      Return ("{" ++ join ", " parts ++ "}")
  | VObj o => obj_repr o
  end.

Definition py_str (v : value) : outcome string :=
  match v with
  | VStr s => Return s
  | VObj o => obj_str o
  | _ => py_repr v
  end.

(** [type(v).__name__] *)
Definition type_name (v : value) : string :=
  match v with
  | VNone => "NoneType"
  | VBool _ => "bool"
  | VInt _ => "int"
  | VStr _ => "str"
  | VList _ => "list"
  | VDict _ => "dict"
  | VObj o => obj_class o
  end.

(** [str(type(v))] *)
Definition type_str (v : value) : string :=
  match v with
  | VObj o => "<class '" ++ obj_module o ++ "." ++ obj_class o ++ "'>"
  | _ => "<class '" ++ type_name v ++ "'>"
  end.

(** *** Truth value, [in], subscripts and attributes *)

Definition truthy (v : value) : bool :=
  match v with
  | VNone => false
  | VBool b => b
  | VInt n => negb (n =? 0)
  | VStr s => negb (String.eqb s "")
  | VList l => match l with [] => false | _ => true end
  | VDict items => match items with [] => false | _ => true end
  | VObj _ => true
  end.

Definition key_is_str (s : string) (k : value) : bool :=
  match k with
  | VStr s' => String.eqb s s'
  | _ => false
  end.

Definition key_is_int (n : Z) (k : value) : bool :=
  match k with
  | VInt n' => n =? n'
  | VBool b => n =? (if b then 1 else 0)
  | _ => false
  end.

Fixpoint dict_find (p : value -> bool) (items : list (value * value)) : option value :=
  match items with
  | [] => None
  | (k, x) :: r => if p k then Some x else dict_find p r
  end.

(** [d[key]] for a [str] key *)
Definition dict_get_str (key : string) (items : list (value * value)) : option value :=
  dict_find (key_is_str key) items.

Fixpoint attr_find (name : string) (attrs : list (string * value)) : option value :=
  match attrs with
  | [] => None
  | (a, x) :: r => if String.eqb name a then Some x else attr_find name r
  end.

Definition no_attribute (v : value) (name : string) : exn :=
  mk_exn AttributeError ("'" ++ type_name v ++ "' object has no attribute '" ++ name ++ "'").

(** [v.name] for a data attribute *)
Definition getattr (v : value) (name : string) : outcome value :=
  match v with
  | VObj o =>
      match attr_find name (obj_attrs o) with
      | Some x => Return x
      | None => Raise (no_attribute v name)
      end
  | _ => Raise (no_attribute v name)
  end.

Fixpoint last_char (s : string) : string :=
  match s with
  | EmptyString => EmptyString
  | String c EmptyString => s
  | String _ s' => last_char s'
  end.

(** [v[-1]] *)
Definition subscript_last (v : value) : outcome value :=
  match v with
  | VList l =>
      match rev l with
      | x :: _ => Return x
      | [] => Raise (mk_exn IndexError "list index out of range")
      end
  | VStr s =>
      match s with
      | EmptyString => Raise (mk_exn IndexError "string index out of range")
      | _ => Return (VStr (last_char s))
      end
  | VDict items =>
      match dict_find (key_is_int (-1)) items with
      | Some x => Return x
      | None => Raise (mk_exn KeyError "-1")
      end
  | _ => Raise (mk_exn TypeError ("'" ++ type_name v ++ "' object is not subscriptable"))
  end.

(** [hasattr(v, 'get')] *)
Definition hasattr_get (v : value) : bool :=
  match v with
  | VDict _ => true
  | VObj o =>
      match obj_get o with
      | Some _ => true
      | None => match attr_find "get" (obj_attrs o) with Some _ => true | None => false end
      end
  | _ => false
  end.

(** [v.get()], called without an argument *)
Definition call_get (v : value) : outcome value :=
  match v with
  | VDict _ => Raise (mk_exn TypeError "get expected at least 1 argument, got 0")
  | VObj o =>
      match obj_get o with
      | Some r => r
      | None =>
          match attr_find "get" (obj_attrs o) with
          | Some a => Raise (mk_exn TypeError ("'" ++ type_name a ++ "' object is not callable"))
          | None => Raise (no_attribute v "get")
          end
      end
  | _ => Raise (no_attribute v "get")
  end.

(** ** [extract_agent_response] *)

Definition newline : string := String (ascii_of_N 10) EmptyString.

(** [isinstance(v, dict)] *)
Definition isinstance_dict (v : value) : bool :=
  match v with
  | VDict _ => true
  | _ => false
  end.

(** [key in v] for a [str] key and a dict [v] *)
Definition dict_contains (key : string) (v : value) : bool :=
  match v with
  | VDict items => match dict_get_str key items with Some _ => true | None => false end
  | _ => false
  end.

(** [v[key]] for a [str] key *)
Definition getitem (v : value) (key : string) : outcome value :=
  match v with
  | VDict items =>
      match dict_get_str key items with
      | Some x => Return x
      | None => Raise (mk_exn KeyError (repr_str key))
      end
  | VList _ => Raise (mk_exn TypeError "list indices must be integers or slices, not str")
  | VStr _ => Raise (mk_exn TypeError "string indices must be integers, not 'str'")
  | _ => Raise (mk_exn TypeError ("'" ++ type_name v ++ "' object is not subscriptable"))
  end.

(** The text built by the handler of [extract_agent_response]; formatting
    [result] into it calls [str(result)], which may raise in its turn. *)
Definition error_text (e : exn) (result : value) : outcome string :=
  r <- py_str result ;;
  Return ("Error accessing result: " ++ exn_msg e ++ newline
          ++ "Result type: " ++ type_str result ++ newline
          ++ "Result: " ++ r).

Definition extract_agent_response (result : value) : outcome value :=
  if isinstance_dict result && dict_contains "messages" result then
    messages <- getitem result "messages" ;;
    if truthy messages then
      last_message <- subscript_last messages ;;
      getattr last_message "content"
    else Return (VStr "No messages found in result")
  else
    try_except
      (content <- (if hasattr_get result then call_get result else Return result) ;;
       s <- py_str content ;;
       Return (VStr s))
      (fun e => s <- error_text e result ;; Return (VStr s)).

(** ** [datetime] *)

Module Datetime.

(** A naive [datetime] with no microseconds. *)
Record datetime := mk_datetime {
  year : Z; month : Z; day : Z; hour : Z; minute : Z; second : Z
}.

Definition is_digit (c : ascii) : bool :=
  let n := N_of_ascii c in ((48 <=? n) && (n <=? 57))%N.

Definition digit_val (c : ascii) : Z := Z.of_N (N_of_ascii c) - 48.

Definition digit_char (d : Z) : ascii := ascii_of_N (Z.to_N (48 + d)).

(** What [\s] matches among the first 128 characters. *)
Definition is_space (c : ascii) : bool :=
  let n := N_of_ascii c in
  (((9 <=? n) && (n <=? 13)) || ((28 <=? n) && (n <=? 32)))%N.

(** The leading run of digits of [s] and what follows it. *)
Fixpoint span_digits (s : string) : list ascii * string :=
  match s with
  | EmptyString => ([], EmptyString)
  | String c s' =>
      if is_digit c then let (ds, r) := span_digits s' in (c :: ds, r)
      else ([], s)
  end.

Fixpoint drop_spaces (s : string) : string :=
  match s with
  | EmptyString => EmptyString
  | String c s' => if is_space c then drop_spaces s' else s
  end.

Definition in_range (lo hi v : Z) : bool := (lo <=? v) && (v <=? hi).

(** A numeric directive whose pattern takes one or two digits denoting a
    number from [lo] to [hi] ([%m], [%d], [%H], [%M], [%S]); the separator
    that follows is not a digit, so the directive takes the whole run. *)
Definition field (lo hi : Z) (s : string) : option (Z * string) :=
  let (ds, rest) := span_digits s in
  match ds with
  | [a] =>
      let v := digit_val a in
      if in_range lo hi v then Some (v, rest) else None
  | [a; b] =>
      let v := 10 * digit_val a + digit_val b in
      if in_range lo hi v then Some (v, rest) else None
  | _ => None
  end.

(** [%y]: exactly two digits. *)
Definition field_y (s : string) : option (Z * string) :=
  let (ds, rest) := span_digits s in
  match ds with
  | [a; b] => Some (10 * digit_val a + digit_val b, rest)
  | _ => None
  end.

(** [%d] also takes a space followed by one digit from 1 to 9. *)
Definition field_d (s : string) : option (Z * string) :=
  match s with
  | String " " s' =>
      let (ds, rest) := span_digits s' in
      match ds with
      | [a] => if in_range 1 9 (digit_val a) then Some (digit_val a, rest) else None
      | _ => None
      end
  | _ => field 1 31 s
  end.

Definition expect (c : ascii) (s : string) : option string :=
  match s with
  | String c' r => if Ascii.eqb c c' then Some r else None
  | EmptyString => None
  end.

(** The blank of the format matches one or more white space characters. *)
Definition expect_spaces (s : string) : option string :=
  match s with
  | String c r => if is_space c then Some (drop_spaces r) else None
  | EmptyString => None
  end.

Definition obind {A B} (m : option A) (k : A -> option B) : option B :=
  match m with
  | Some a => k a
  | None => None
  end.

(** The six numbers that the pattern of ['%y/%m/%d %H:%M:%S'] finds in a
    text that it matches up to its end. *)
Definition match_format (s : string) : option (Z * Z * Z * Z * Z * Z) :=
  obind (field_y s) (fun '(y, s) =>
  obind (expect "/" s) (fun s =>
  obind (field 1 12 s) (fun '(m, s) =>
  obind (expect "/" s) (fun s =>
  obind (field_d s) (fun '(d, s) =>
  obind (expect_spaces s) (fun s =>
  obind (field 0 23 s) (fun '(hh, s) =>
  obind (expect ":" s) (fun s =>
  obind (field 0 59 s) (fun '(mm, s) =>
  obind (expect ":" s) (fun s =>
  obind (field 0 61 s) (fun '(ss, s) =>
  match s with
  | EmptyString => Some (y, m, d, hh, mm, ss)
  | _ => None
  end))))))))))).

Definition is_leap (y : Z) : bool :=
  (y mod 4 =? 0) && (negb (y mod 100 =? 0) || (y mod 400 =? 0)).

Definition days_in_month (y m : Z) : Z :=
  if m =? 2 then (if is_leap y then 29 else 28)
  else if (m =? 4) || (m =? 6) || (m =? 9) || (m =? 11) then 30
  else 31.

(** [datetime.strptime(s, '%y/%m/%d %H:%M:%S')].  Every failure is a
    [ValueError]; a text with unconverted data at its end is reported with
    the message of a mismatch. *)
Definition strptime (s : string) : outcome datetime :=
  match match_format s with
  | None =>
      Raise (mk_exn ValueError
               ("time data " ++ repr_str s ++ " does not match format '%y/%m/%d %H:%M:%S'"))
  | Some (y, m, d, hh, mm, ss) =>
      let year := if y <=? 68 then y + 2000 else y + 1900 in
      if days_in_month year m <? d then
        Raise (mk_exn ValueError "day is out of range for month")
      else if 59 <? ss then
        Raise (mk_exn ValueError "second must be in 0..59")
      else Return (mk_datetime year m d hh mm ss)
  end.

Definition pad2 (n : Z) : string :=
  String (digit_char (n / 10)) (String (digit_char (n mod 10)) EmptyString).

Definition pad4 (n : Z) : string :=
  String (digit_char (n / 1000)) (String (digit_char (n / 100 mod 10)) (pad2 (n mod 100))).

(** [dt.isoformat(" ")], the text that [sqlite3] binds for a [datetime]. *)
Definition isoformat (dt : datetime) : string :=
  pad4 (year dt) ++ "-" ++ pad2 (month dt) ++ "-" ++ pad2 (day dt) ++ " "
  ++ pad2 (hour dt) ++ ":" ++ pad2 (minute dt) ++ ":" ++ pad2 (second dt).

Definition two (a b : ascii) : option Z :=
  if is_digit a && is_digit b then Some (10 * digit_val a + digit_val b) else None.

(** The instant that a stored text [YYYY-MM-DD HH:MM:SS] denotes. *)
Definition instant_of_text (s : string) : option datetime :=
  match list_ascii_of_string s with
  | [y1; y2; y3; y4; s1; m1; m2; s2; d1; d2; s3; h1; h2; s4; i1; i2; s5; c1; c2] =>
      if Ascii.eqb s1 "-" && Ascii.eqb s2 "-" && Ascii.eqb s3 " "
         && Ascii.eqb s4 ":" && Ascii.eqb s5 ":" then
        obind (two y1 y2) (fun yh =>
        obind (two y3 y4) (fun yl =>
        obind (two m1 m2) (fun m =>
        obind (two d1 d2) (fun d =>
        obind (two h1 h2) (fun hh =>
        obind (two i1 i2) (fun mm =>
        obind (two c1 c2) (fun ss =>
        Some (mk_datetime (100 * yh + yl) m d hh mm ss))))))))
      else None
  | _ => None
  end.

(** The fields of a [datetime] that [strptime] can return. *)
Definition in_strptime_range (dt : datetime) : Prop :=
  1969 <= year dt <= 2068 /\ 1 <= month dt <= 12 /\ 1 <= day dt <= 31 /\
  0 <= hour dt <= 23 /\ 0 <= minute dt <= 59 /\ 0 <= second dt <= 59.

End Datetime.
Export Datetime.

(** ** The [sqlite3] module *)

Module Sqlite.

Inductive sqlval :=
| SqlNull
| SqlInt (n : Z)
| SqlText (s : string).

(** A row of a table and a row of a result set: the values in column order. *)
Definition row := list sqlval.

Inductive affinity := AffInteger | AffText | AffNumeric.

Record column := mk_column { col_name : string; col_affinity : affinity }.

(** An in-memory database holding one table: its name and columns, its rows
    in rowid order, and the largest rowid that [AUTOINCREMENT] has given
    out (the table's entry of [sqlite_sequence]). *)
Record database := mk_database {
  tbl_name : string;
  tbl_columns : list column;
  tbl_rows : list row;
  tbl_seq : Z
}.

(** *** Binding parameters and storing values *)

Definition int64_min : Z := - 2 ^ 63.
Definition int64_max : Z := 2 ^ 63 - 1.

(** The value bound for a Python object given as a parameter. *)
Definition bind_param (index : nat) (v : value) : outcome sqlval :=
  match v with
  | VNone => Return SqlNull
  | VBool b => Return (SqlInt (if b then 1 else 0))
  | VInt n =>
      if (int64_min <=? n) && (n <=? int64_max) then Return (SqlInt n)
      else Raise (mk_exn OverflowError "Python int too large to convert to SQLite INTEGER")
  | VStr s => Return (SqlText s)
  | _ =>
      Raise (mk_exn ProgrammingError
               ("Error binding parameter " ++ str_of_nat index ++ ": type '"
                ++ type_name v ++ "' is not supported"))
  end.

(** A column of [TEXT] affinity stores a number as its text. *)
Definition text_affinity (v : sqlval) : sqlval :=
  match v with
  | SqlInt n => SqlText (str_of_Z n)
  | _ => v
  end.

Definition rowid (r : row) : Z :=
  match r with
  | SqlInt n :: _ => n
  | _ => 0
  end.

Definition largest_rowid (rows : list row) : Z :=
  fold_right (fun r acc => Z.max (rowid r) acc) 0 rows.

(** *** Reading: a fragment of [SELECT] *)

Definition upper_char (c : ascii) : ascii :=
  let n := N_of_ascii c in
  if ((97 <=? n) && (n <=? 122))%N then ascii_of_N (n - 32) else c.

Fixpoint upper (s : string) : string :=
  match s with
  | EmptyString => EmptyString
  | String c s' => String (upper_char c) (upper s')
  end.

(** Names compare without regard to case. *)
Definition name_eqb (a b : string) : bool := String.eqb (upper a) (upper b).

Definition sql_space (c : ascii) : bool :=
  let n := N_of_ascii c in
  ((n =? 32) || (n =? 9) || (n =? 10) || (n =? 12) || (n =? 13))%N.

(** The statement cut at its white space. *)
Fixpoint tokens_from (cur : string) (s : string) : list string :=
  match s with
  | EmptyString => match cur with EmptyString => [] | _ => [cur] end
  | String c s' =>
      if sql_space c then
        match cur with
        | EmptyString => tokens_from EmptyString s'
        | _ => cur :: tokens_from EmptyString s'
        end
      else tokens_from (cur ++ String c EmptyString) s'
  end.

Definition tokens (s : string) : list string := tokens_from EmptyString s.

Definition is_alpha (c : ascii) : bool :=
  let n := N_of_ascii c in
  (((65 <=? n) && (n <=? 90)) || ((97 <=? n) && (n <=? 122)) || (n =? 95))%N.

Fixpoint all_chars (p : ascii -> bool) (s : string) : bool :=
  match s with
  | EmptyString => true
  | String c s' => p c && all_chars p s'
  end.

Definition keywords : list string :=
  ["ABORT"; "ACTION"; "ADD"; "AFTER"; "ALL"; "ALTER"; "ALWAYS"; "ANALYZE"; "AND";
   "AS"; "ASC"; "ATTACH"; "AUTOINCREMENT"; "BEFORE"; "BEGIN"; "BETWEEN"; "BY";
   "CASCADE"; "CASE"; "CAST"; "CHECK"; "COLLATE"; "COLUMN"; "COMMIT"; "CONFLICT";
   "CONSTRAINT"; "CREATE"; "CROSS"; "CURRENT"; "CURRENT_DATE"; "CURRENT_TIME";
   "CURRENT_TIMESTAMP"; "DATABASE"; "DEFAULT"; "DEFERRABLE"; "DEFERRED"; "DELETE";
   "DESC"; "DETACH"; "DISTINCT"; "DO"; "DROP"; "EACH"; "ELSE"; "END"; "ESCAPE";
   "EXCEPT"; "EXCLUDE"; "EXCLUSIVE"; "EXISTS"; "EXPLAIN"; "FAIL"; "FILTER"; "FIRST";
   "FOLLOWING"; "FOR"; "FOREIGN"; "FROM"; "FULL"; "GENERATED"; "GLOB"; "GROUP";
   "GROUPS"; "HAVING"; "IF"; "IGNORE"; "IMMEDIATE"; "IN"; "INDEX"; "INDEXED";
   "INITIALLY"; "INNER"; "INSERT"; "INSTEAD"; "INTERSECT"; "INTO"; "IS"; "ISNULL";
   "JOIN"; "KEY"; "LAST"; "LEFT"; "LIKE"; "LIMIT"; "MATCH"; "MATERIALIZED";
   "NATURAL"; "NO"; "NOT"; "NOTHING"; "NOTNULL"; "NULL"; "NULLS"; "OF"; "OFFSET";
   "ON"; "OR"; "ORDER"; "OTHERS"; "OUTER"; "OVER"; "PARTITION"; "PLAN"; "PRAGMA";
   "PRECEDING"; "PRIMARY"; "QUERY"; "RAISE"; "RANGE"; "RECURSIVE"; "REFERENCES";
   "REGEXP"; "REINDEX"; "RELEASE"; "RENAME"; "REPLACE"; "RESTRICT"; "RETURNING";
   "RIGHT"; "ROLLBACK"; "ROW"; "ROWS"; "SAVEPOINT"; "SELECT"; "SET"; "TABLE";
   "TEMP"; "TEMPORARY"; "THEN"; "TIES"; "TO"; "TRANSACTION"; "TRIGGER";
   "UNBOUNDED"; "UNION"; "UNIQUE"; "UPDATE"; "USING"; "VACUUM"; "VALUES"; "VIEW";
   "VIRTUAL"; "WHEN"; "WHERE"; "WINDOW"; "WITH"; "WITHOUT";
   "TRUE"; "FALSE"; "ROWID"; "OID"; "_ROWID_"].

(** A plain name: letters, digits and underscores, not starting with a
    digit, and none of the words that the engine reads in a way of its
    own. *)
Definition is_name (t : string) : bool :=
  match t with
  | EmptyString => false
  | String c rest =>
      is_alpha c
      && all_chars (fun c => is_alpha c || is_digit c) rest
      && negb (existsb (String.eqb (upper t)) keywords)
  end.

Fixpoint strip_last (s : string) : option (string * ascii) :=
  match s with
  | EmptyString => None
  | String c EmptyString => Some (EmptyString, c)
  | String c s' =>
      match strip_last s' with
      | Some (body, l) => Some (String c body, l)
      | None => None
      end
  end.

(** A text literal ['...'] with no quote inside. *)
Definition text_literal (t : string) : option string :=
  match t with
  | String q rest =>
      match strip_last rest with
      | Some (body, q') =>
          if Ascii.eqb q quote1 && Ascii.eqb q' quote1 && negb (str_mem quote1 body)
          then Some body else None
      | None => None
      end
  | EmptyString => None
  end.

Inductive projection :=
| Star
| Column (name : string).

Record select := mk_select {
  sel_proj : projection;
  sel_table : string;
  sel_where : option (string * string)
}.

Definition parse_projection (t : string) : option projection :=
  if String.eqb t "*" then Some Star
  else if is_name t then Some (Column t)
  else None.

(** The statements that the model reads:
    [SELECT <* or column> FROM <table>] and the same followed by
    [WHERE <column> = '<text>'].  [None] is a statement outside of them,
    about which the model says nothing. *)
Definition parse (query : string) : option select :=
  match tokens query with
  | [kw_select; p; kw_from; t] =>
      if name_eqb kw_select "SELECT" && name_eqb kw_from "FROM" && is_name t then
        match parse_projection p with
        | Some pr => Some (mk_select pr t None)
        | None => None
        end
      else None
  | [kw_select; p; kw_from; t; kw_where; c; op; lit] =>
      if name_eqb kw_select "SELECT" && name_eqb kw_from "FROM" && is_name t
         && name_eqb kw_where "WHERE" && is_name c && String.eqb op "=" then
        match parse_projection p, text_literal lit with
        | Some pr, Some body => Some (mk_select pr t (Some (c, body)))
        | _, _ => None
        end
      else None
  | _ => None
  end.

Fixpoint find_column (name : string) (cols : list column) (i : nat) : option (nat * affinity) :=
  match cols with
  | [] => None
  | c :: rest =>
      if name_eqb name (col_name c) then Some (i, col_affinity c)
      else find_column name rest (S i)
  end.

(** Names of tables that the engine provides by itself. *)
Definition engine_table (t : string) : bool :=
  starts_with "SQLITE_" (upper t) || starts_with "PRAGMA_" (upper t)
  || existsb (name_eqb t)
       ["json_each"; "json_tree"; "dbstat"; "bytecode"; "tables_used"; "generate_series"].

Definition no_such_table (t : string) : exn :=
  mk_exn OperationalError ("no such table: " ++ t).

Definition no_such_column (c : string) : exn :=
  mk_exn OperationalError ("no such column: " ++ c).

Definition text_equals (lit : string) (v : sqlval) : bool :=
  match v with
  | SqlText s => String.eqb s lit
  | _ => false
  end.

(** Preparing and running a statement of the fragment: the table is looked
    up, then the column of the result, then the column of the condition; the
    rows come in rowid order.  A condition on a column that is not of
    [TEXT] affinity is left outside the model. *)
Definition run_select (db : database) (q : select) : option (outcome (list row)) :=
  if name_eqb (sel_table q) (tbl_name db) then
    let project : outcome (row -> row) :=
      match sel_proj q with
      | Star => Return (fun r => r)
      | Column c =>
          match find_column c (tbl_columns db) 0 with
          | Some (i, _) => Return (fun r => [nth i r SqlNull])
          | None => Raise (no_such_column c)
          end
      end in
    match project with
    | Return pr =>
        match sel_where q with
        | None => Some (Return (map pr (tbl_rows db)))
        | Some (c, lit) =>
            match find_column c (tbl_columns db) 0 with
            | Some (i, AffText) =>
                Some (Return (map pr (filter (fun r => text_equals lit (nth i r SqlNull))
                                             (tbl_rows db))))
            | Some (_, _) => None
            | None => Some (Raise (no_such_column c))
            end
        end
    | Raise e => Some (Raise e)
    end
  else if engine_table (sel_table q) then None
  else Some (Raise (no_such_table (sel_table q))).

(** [cursor.execute(query)]: the result set that the cursor holds. *)
Definition cursor_execute (db : database) (query : string) : option (outcome (list row)) :=
  match parse query with
  | Some q => run_select db q
  | None => None
  end.

(** [cursor.fetchall()] *)
Definition fetchall (result_set : list row) : list row := result_set.

End Sqlite.
Export Sqlite.

(** ** Files *)

(** What [open(name, 'r')] followed by [json.load] meets. *)
Inductive file :=
| NoFile
| NotJson
| Json (document : value).

Definition filesystem := string -> file.

Definition no_such_file (name : string) : exn :=
  mk_exn FileNotFoundError ("[Errno 2] No such file or directory: " ++ repr_str name).

Definition read_json (fs : filesystem) (name : string) : outcome value :=
  match fs name with
  | NoFile => Raise (no_such_file name)
  | NotJson => Raise (mk_exn JSONDecodeError "Expecting value: line 1 column 1 (char 0)")
  | Json v => Return v
  end.

Fixpoint chars (s : string) : list value :=
  match s with
  | EmptyString => []
  | String c s' => VStr (String c EmptyString) :: chars s'
  end.

(** The items that [for entry in v] goes through. *)
Definition py_iter (v : value) : outcome (list value) :=
  match v with
  | VList l => Return l
  | VDict items => Return (map fst items)
  | VStr s => Return (chars s)
  | _ => Raise (mk_exn TypeError ("'" ++ type_name v ++ "' object is not iterable"))
  end.

(** [datetime.strptime(v, '%y/%m/%d %H:%M:%S')] on an object *)
Definition strptime_obj (v : value) : outcome datetime :=
  match v with
  | VStr s => strptime s
  | _ => Raise (mk_exn TypeError
                  ("strptime() argument 1 must be str, not " ++ type_name v))
  end.

(** ** [create_logs_database] *)

Definition logs_columns : list column :=
  [mk_column "id" AffInteger;
   mk_column "spark_app_id" AffText;
   mk_column "log_message" AffText;
   mk_column "log_level" AffText;
   mk_column "time" AffNumeric].

(** The connection after [CREATE TABLE logs (...)]. *)
Definition empty_logs : database := mk_database "logs" logs_columns [] 0.

(** [INSERT INTO logs (spark_app_id, log_message, log_level, time) VALUES
    (?, ?, ?, ?)]: the parameters are bound in order, the [datetime] as its
    ISO text, which is no number and so stays a text in the [TIMESTAMP]
    column; the new id is one more than the largest given so far. *)
Definition insert_log (db : database) (application_id message level : value)
    (time_obj : datetime) : outcome database :=
  a <- bind_param 1 application_id ;;
  m <- bind_param 2 message ;;
  l <- bind_param 3 level ;;
  let id := Z.max (largest_rowid (tbl_rows db)) (tbl_seq db) + 1 in
  Return (mk_database (tbl_name db) (tbl_columns db)
            (tbl_rows db ++
               [[SqlInt id; text_affinity a; text_affinity m; text_affinity l;
                 SqlText (isoformat time_obj)]])%list
            id).

(** One turn of the inner loop. *)
Definition insert_entry (db : database) (entry : value) : outcome database :=
  t <- getitem entry "time" ;;
  time_obj <- strptime_obj t ;;
  application_id <- getitem entry "application_id" ;;
  message <- getitem entry "message" ;;
  level <- getitem entry "level" ;;
  insert_log db application_id message level time_obj.

(** The inner loop: the database that it reaches and how it ends. *)
Fixpoint insert_entries (db : database) (entries : list value) : database * outcome unit :=
  match entries with
  | [] => (db, Return tt)
  | entry :: rest =>
      match insert_entry db entry with
      | Return db' => insert_entries db' rest
      | Raise e => (db, Raise e)
      end
  end.

(** [len(v)] *)
Definition py_len (v : value) : outcome Z :=
  match v with
  | VList l => Return (Z.of_nat (List.length l))
  | VDict items => Return (Z.of_nat (List.length items))
  | VStr s => Return (Z.of_nat (String.length s))
  | _ => Raise (mk_exn TypeError ("object of type '" ++ type_name v ++ "' has no len()"))
  end.

(** The body of the [try] for one file: the database reached, and the
    number of entries of the file when the body ends without raising. *)
Definition load_file (fs : filesystem) (db : database) (json_file : string)
    : database * outcome Z :=
  match read_json fs json_file with
  | Raise e => (db, Raise e)
  | Return log_entries =>
      match py_iter log_entries with
      | Raise e => (db, Raise e)
      | Return entries =>
          match insert_entries db entries with
          | (db', Return _) => (db', py_len log_entries)
          | (db', Raise e) => (db', Raise e)
          end
      end
  end.

Definition json_files : list string := ["oom.json"; "disk.json"; "throttle.json"].

(** The state of the run: the database, [total_entries] and the lines
    printed so far. *)
Record loader := mk_loader {
  ld_db : database;
  ld_total : Z;
  ld_out : list string
}.

(** [print(line)]: one more line on the standard output. *)
Definition print (out : list string) (line : string) : list string :=
  List.app out [line].

(** The outer loop, with its [except FileNotFoundError]. *)
Fixpoint load_files (fs : filesystem) (files : list string) (st : loader)
    : loader * outcome unit :=
  match files with
  | [] => (st, Return tt)
  | json_file :: rest =>
      match load_file fs (ld_db st) json_file with
      | (db, Return n) =>
          load_files fs rest
            (mk_loader db (ld_total st + n)
               (print (ld_out st)
                  ("Loaded " ++ str_of_Z n ++ " entries from " ++ json_file)))
      | (db, Raise e) =>
          if is_file_not_found e then
            load_files fs rest
              (mk_loader db (ld_total st)
                 (print (ld_out st) ("Warning: " ++ json_file ++ " not found, skipping...")))
          else (mk_loader db (ld_total st) (ld_out st), Raise e)
      end
  end.

(** [create_logs_database()]: the lines printed and the connection returned
    or the exception raised. *)
Definition create_logs_database (fs : filesystem) : list string * outcome database :=
  match load_files fs json_files (mk_loader empty_logs 0 []) with
  | (st, Return _) =>
      (print (ld_out st)
         ("Total: " ++ str_of_Z (ld_total st) ++ " log entries loaded into in-memory database"),
       Return (ld_db st))
  | (st, Raise e) => (ld_out st, Raise e)
  end.

(** ** [execute_query] *)

(** The function that [@tool] wraps as [execute_query], on the connection
    [conn] that the module keeps; [None] when the statement is outside the
    modelled fragment. *)
Definition execute_query (conn : database) (query : string) : option (outcome (list row)) :=
  match cursor_execute conn query with
  | Some (Return result_set) => Some (Return (fetchall result_set))
  | Some (Raise e) => Some (Raise e)
  | None => None
  end.

(** * Vocabulary of the properties *)

(** ** Results of agents *)

(** A message as an agent framework returns it: an object with a [content]
    attribute. *)
Definition message_object (content : value) : value :=
  VObj (mk_obj "langchain_core.messages.ai" "AIMessage" [("content", content)] None
          (Return "AIMessage") (Return "AIMessage")).

(** [{"messages": [{"role": "assistant", "content": "hello"}]}] *)
Definition dict_messages : value :=
  VDict [(VStr "messages",
          VList [VDict [(VStr "role", VStr "assistant"); (VStr "content", VStr "hello")]])].

(** [{"messages": [{"content": "hello"}]}] *)
Definition hello_dict : value :=
  VDict [(VStr "messages", VList [VDict [(VStr "content", VStr "hello")]])].


(** ** Entries, records and files *)

(** The four texts of an entry that has them all. *)
Definition entry_fields (e : value) : option (string * string * string * string) :=
  match e with
  | VDict items =>
      match dict_get_str "application_id" items, dict_get_str "message" items,
            dict_get_str "level" items, dict_get_str "time" items with
      | Some (VStr a), Some (VStr m), Some (VStr l), Some (VStr t) => Some (a, m, l, t)
      | _, _, _, _ => None
      end
  | _ => None
  end.

(** A well-formed entry: an object with the four fields, all texts, the
    time in the format of the loader. *)
Definition well_formed_entry (e : value) : bool :=
  match entry_fields e with
  | Some (_, _, _, t) =>
      match strptime t with
      | Return _ => true
      | Raise _ => false
      end
  | None => false
  end.

(** The record of the specification for a well-formed entry stored under
    [id]. *)
Definition record_of (id : Z) (e : value) : row :=
  match entry_fields e with
  | Some (a, m, l, t) =>
      match strptime t with
      | Return dt => [SqlInt id; SqlText a; SqlText m; SqlText l; SqlText (isoformat dt)]
      | Raise _ => []
      end
  | None => []
  end.

Fixpoint records_from (id : Z) (es : list value) : list row :=
  match es with
  | [] => []
  | e :: rest => record_of id e :: records_from (id + 1) rest
  end.

(** [k; k+1; ...], [n] numbers. *)
Fixpoint count_from (k : Z) (n : nat) : list Z :=
  match n with
  | O => []
  | S n' => k :: count_from (k + 1) n'
  end.

Definition file_entries (fl : file) : list value :=
  match fl with
  | Json (VList es) => es
  | _ => []
  end.

(** A file that is absent, or an array of well-formed entries. *)
Definition file_ok (fl : file) : bool :=
  match fl with
  | NoFile => true
  | Json (VList es) => forallb well_formed_entry es
  | _ => false
  end.

Definition files_ok (fs : filesystem) : bool :=
  forallb (fun f => file_ok (fs f)) json_files.

(** The entries of the files that are there, in the order of loading. *)
Definition loaded_entries (fs : filesystem) : list value :=
  flat_map (fun f => file_entries (fs f)) json_files.

Definition warning (json_file : string) : string :=
  "Warning: " ++ json_file ++ " not found, skipping...".

Definition report_line (fs : filesystem) (json_file : string) : string :=
  match fs json_file with
  | NoFile => warning json_file
  | fl =>
      "Loaded " ++ str_of_Z (Z.of_nat (List.length (file_entries fl)))
      ++ " entries from " ++ json_file
  end.



(** ** Malformed entries *)

Definition required_fields : list string :=
  ["time"; "application_id"; "message"; "level"].

(** An entry that is an object without one of the four fields. *)
Definition missing_field (e : value) : bool :=
  match e with
  | VDict items =>
      existsb (fun k => match dict_get_str k items with None => true | Some _ => false end)
        required_fields
  | _ => false
  end.

(** An entry whose [time] is a text that [strptime] does not accept. *)
Definition bad_timestamp (e : value) : bool :=
  match e with
  | VDict items =>
      match dict_get_str "time" items with
      | Some (VStr t) =>
          match strptime t with
          | Raise _ => true
          | Return _ => false
          end
      | _ => false
      end
  | _ => false
  end.

(** A file that is there and is not a JSON document, or is an array with an
    entry that lacks a field or has a bad timestamp. *)
Definition malformed_file (fl : file) : bool :=
  match fl with
  | NotJson => true
  | Json (VList es) => existsb (fun e => missing_field e || bad_timestamp e) es
  | _ => false
  end.

(** ** Sample files *)

(** Two present files and an absent one. *)
Definition sample_entry (a m l t : string) : value :=
  VDict [(VStr "application_id", VStr a); (VStr "message", VStr m);
         (VStr "level", VStr l); (VStr "time", VStr t)].

Definition sample_files : filesystem := fun name =>
  if String.eqb name "oom.json" then
    Json (VList [sample_entry "app-1" "java.lang.OutOfMemoryError" "ERROR" "24/01/15 10:30:00";
                 sample_entry "app-1" "Starting executor" "INFO" "24/01/15 10:31:07"])
  else if String.eqb name "throttle.json" then
    Json (VList [sample_entry "app-2" "SlowDown" "ERROR" "99/12/31 23:59:59"])
  else NoFile.

(** [disk.json] has a well-formed entry and then one without a level. *)
Definition broken_files : filesystem := fun name =>
  if String.eqb name "disk.json" then
    Json (VList [sample_entry "app-3" "No space left on device" "ERROR" "24/02/29 08:00:00";
                 VDict [(VStr "application_id", VStr "app-3"); (VStr "message", VStr "x");
                        (VStr "time", VStr "24/02/29 08:00:01")]])
  else sample_files name.

(** ** Data without objects *)

(** A value built of [None], booleans, integers, texts, lists and dicts
    only, as a JSON decoder returns. *)
Fixpoint plain (v : value) : bool :=
  match v with
  | VList l => forallb plain l
  | VDict items => forallb (fun kv => plain (fst kv) && plain (snd kv)) items
  | VObj _ => false
  | _ => true
  end.

(** The error string of [extract_agent_response] for a dict on which
    [get()] has raised. *)
Definition dict_error_text (r : string) : string :=
  "Error accessing result: get expected at least 1 argument, got 0" ++ newline
  ++ "Result type: <class 'dict'>" ++ newline
  ++ "Result: " ++ r.

(** ** Entries that load *)




(** The text of a field of an entry. *)
Definition entry_text (key : string) (e : value) : string :=
  match e with
  | VDict items =>
      match dict_get_str key items with
      | Some (VStr s) => s
      | _ => ""
      end
  | _ => ""
  end.

Definition has_level (lvl : string) (e : value) : bool :=
  String.eqb (entry_text "level" e) lvl.

(** The records, under the ids that they were given, of the entries that
    satisfy [p]. *)
Fixpoint records_where (p : value -> bool) (id : Z) (es : list value) : list row :=
  match es with
  | [] => []
  | e :: rest =>
      if p e then record_of id e :: records_where p (id + 1) rest
      else records_where p (id + 1) rest
  end.

(** ** Stores *)

(** What holds of every store that the loader builds: the ids are 1, 2, ...
    in the order of the rows and stand in the first cell, the sequence is at
    the last of them, and the [time] cell holds the ISO text of a
    [datetime] that [strptime] can return. *)
Definition store_ok (db : database) : Prop :=
  map rowid (tbl_rows db) = count_from 1 (List.length (tbl_rows db))
  /\ tbl_seq db = Z.of_nat (List.length (tbl_rows db))
  /\ Forall (fun r => nth 0 r SqlNull = SqlInt (rowid r)) (tbl_rows db)
  /\ Forall (fun r => exists dt, nth 4 r SqlNull = SqlText (isoformat dt)
                                 /\ in_strptime_range dt) (tbl_rows db).

Definition total_line (n : nat) : string :=
  "Total: " ++ str_of_Z (Z.of_nat n) ++ " log entries loaded into in-memory database".



(** An entry with a null application and a number as its message. *)
Definition loose_entry : value :=
  VDict [(VStr "application_id", VNone); (VStr "message", VInt 137);
         (VStr "level", VStr "WARN"); (VStr "time", VStr "70/1/1 0:0:0");
         (VStr "host", VStr "node-4")].

Definition loose_files : filesystem := fun name =>
  if String.eqb name "disk.json" then Json (VList [loose_entry]) else sample_files name.

(** * Properties *)

(** ** Text searches *)





(** ** [extract_agent_response] *)

Section Extract.

(** C1: the claim is that [extract_agent_response] returns a string on every
    input and never raises.  On a result whose last message is a plain dict
    the branch for results with messages, which has no handler, lets the
    [AttributeError] of [last_message.content] escape. *)
Theorem extract_agent_response_raises :
  extract_agent_response dict_messages
  = Raise (mk_exn AttributeError "'dict' object has no attribute 'content'").
Proof. reflexivity. Qed.

(** In the same branch the value returned is the content as it is, which
    need not be a string. *)
Lemma extract_agent_response_returns_non_string :
  extract_agent_response
    (VDict [(VStr "messages", VList [message_object (VList [VStr "a"; VStr "b"])])])
  = Return (VList [VStr "a"; VStr "b"]).
Proof. reflexivity. Qed.

(** And the handler of the other branch formats the result, so a result
    whose [str] raises makes the handler raise in its turn. *)
Lemma extract_agent_response_handler_raises (e : exn) :
  extract_agent_response (VObj (mk_obj "m" "C" [] None (Raise e) (Raise e))) = Raise e.
Proof. reflexivity. Qed.

(** C3, as stated: on [{"messages": [{"content": "hello"}]}] the result is
    not ["hello"]: a dict has no attribute [content]. *)
Lemma extract_hello_dict_not_hello :
  extract_agent_response hello_dict <> Return (VStr "hello").
Proof. discriminate. Qed.

Lemma last_of_snoc (ms : list value) (m : value) :
  subscript_last (VList (ms ++ [m])) = Return m.
Proof.
  unfold subscript_last. rewrite rev_app_distr. reflexivity.
Qed.

Lemma truthy_snoc (ms : list value) (m : value) : truthy (VList (ms ++ [m])) = true.
Proof. destruct ms; reflexivity. Qed.

(** C3, amended: on a dict whose ["messages"] is a non-empty list, the last of
    which is an object with a [content] attribute, the result is that
    content; with the content ["hello"] it is ["hello"]. *)
Theorem extract_last_message_content (items : list (value * value))
    (ms : list value) (o : obj_data value) (content : value) :
  dict_get_str "messages" items = Some (VList (ms ++ [VObj o])) ->
  attr_find "content" (obj_attrs o) = Some content ->
  extract_agent_response (VDict items) = Return content.
Proof.
  intros Hm Hc. unfold extract_agent_response.
  simpl isinstance_dict. unfold dict_contains, getitem. rewrite Hm. simpl andb.
  cbv iota. unfold bind at 1. rewrite truthy_snoc, last_of_snoc.
  unfold bind, getattr. rewrite Hc. reflexivity.
Qed.

Lemma extract_last_message_content_witness :
  extract_agent_response
    (VDict [(VStr "messages", VList ([message_object (VStr "hi")] ++ [message_object (VStr "hello")]))])
  = Return (VStr "hello").
Proof.
  apply (extract_last_message_content _ [message_object (VStr "hi")]
           (mk_obj "langchain_core.messages.ai" "AIMessage" [("content", VStr "hello")] None
              (Return "AIMessage") (Return "AIMessage"))); reflexivity.
Defined.




(** C5, as stated: a plain dict without ["messages"] has a [get], but calling
    it without an argument raises, so the result is not the stringified
    result of the call. *)
Lemma extract_plain_dict_not_accessor_result :
  ~ (forall result : value,
       isinstance_dict result && dict_contains "messages" result = false ->
       hasattr_get result = true ->
       exists v s, call_get result = Return v /\ py_str v = Return s
                   /\ extract_agent_response result = Return (VStr s)).
Proof.
  intros H. destruct (H (VDict []) eq_refl eq_refl) as [v [s [Hg _]]]. discriminate.
Qed.

(** C5, amended: for a result outside the messages case that has a [get]
    whose call without an argument returns a value that [str] accepts, the
    result is that string. *)
Theorem extract_accessor_result (result v : value) (s : string) :
  isinstance_dict result && dict_contains "messages" result = false ->
  hasattr_get result = true ->
  call_get result = Return v ->
  py_str v = Return s ->
  extract_agent_response result = Return (VStr s).
Proof.
  intros Hc Hh Hg Hs. unfold extract_agent_response. rewrite Hc, Hh, Hg.
  unfold bind at 1. rewrite Hs. reflexivity.
Qed.

Lemma extract_accessor_result_witness :
  extract_agent_response
    (VObj (mk_obj "concurrent.futures" "Future" [] (Some (Return (VInt 7)))
             (Return "<Future>") (Return "<Future>")))
  = Return (VStr "7").
Proof.
  apply (extract_accessor_result _ (VInt 7)); reflexivity.
Defined.

End Extract.

(** ** Timestamps *)

Section Timestamps.

Lemma digit_char_spec (d : Z) :
  0 <= d < 10 -> is_digit (digit_char d) = true /\ digit_val (digit_char d) = d.
Proof.
  intros H.
  assert (E : d = 0 \/ d = 1 \/ d = 2 \/ d = 3 \/ d = 4 \/ d = 5 \/ d = 6 \/ d = 7
              \/ d = 8 \/ d = 9) by lia.
  repeat (destruct E as [E|E]; [subst d; split; reflexivity|]).
  subst d; split; reflexivity.
Qed.

Lemma is_digit_val (c : ascii) : is_digit c = true -> 0 <= digit_val c <= 9.
Proof.
  unfold is_digit, digit_val. intros H.
  apply andb_true_iff in H as [H1 H2].
  apply N.leb_le in H1. apply N.leb_le in H2. lia.
Qed.

Lemma two_digit_chars (a b : Z) :
  0 <= a < 10 -> 0 <= b < 10 -> two (digit_char a) (digit_char b) = Some (10 * a + b).
Proof.
  intros Ha Hb. unfold two.
  destruct (digit_char_spec a Ha) as [-> ->], (digit_char_spec b Hb) as [-> ->].
  reflexivity.
Qed.

Lemma two_pad (n : Z) :
  0 <= n < 100 -> two (digit_char (n / 10)) (digit_char (n mod 10)) = Some n.
Proof.
  intros H. rewrite two_digit_chars.
  - f_equal. Z.div_mod_to_equations. lia.
  - Z.div_mod_to_equations. lia.
  - Z.div_mod_to_equations. lia.
Qed.

(** The text that is stored for a [datetime] denotes that [datetime]. *)
Lemma instant_of_isoformat (dt : datetime) :
  in_strptime_range dt -> instant_of_text (isoformat dt) = Some dt.
Proof.
  destruct dt as [y m d hh mm ss]. unfold in_strptime_range. simpl.
  intros (Hy & Hm & Hd & Hh & Hi & Hs).
  unfold instant_of_text, isoformat, pad4, pad2.
  cbn -[Z.mul Z.add Z.div Z.modulo two].
  rewrite (two_digit_chars (y / 1000) (y / 100 mod 10))
    by (Z.div_mod_to_equations; lia).
  rewrite (two_pad (y mod 100)) by (Z.div_mod_to_equations; lia).
  rewrite !two_pad by lia. unfold obind.
  do 2 f_equal. Z.div_mod_to_equations. lia.
Qed.

Lemma span_digits_all (s : string) :
  Forall (fun c => is_digit c = true) (fst (span_digits s)).
Proof.
  induction s as [|c s IH]; simpl; [constructor|].
  destruct (is_digit c) eqn:E; [|constructor].
  destruct (span_digits s) as [ds r]. simpl in *. constructor; assumption.
Qed.

Lemma field_range (lo hi : Z) (s : string) (v : Z) (r : string) :
  field lo hi s = Some (v, r) -> lo <= v <= hi.
Proof.
  unfold field, in_range. destruct (span_digits s) as [ds rest].
  destruct ds as [|a [|b [|]]]; try discriminate;
    (destruct (_ && _) eqn:E; [|discriminate]); intros H;
    apply andb_true_iff in E as [E1 E2]; apply Z.leb_le in E1, E2.
  - assert (Hv : digit_val a = v) by congruence. lia.
  - assert (Hv : 10 * digit_val a + digit_val b = v) by congruence. lia.
Qed.

Lemma field_y_range (s : string) (v : Z) (r : string) :
  field_y s = Some (v, r) -> 0 <= v <= 99.
Proof.
  unfold field_y. pose proof (span_digits_all s) as A.
  destruct (span_digits s) as [ds rest]. simpl in A.
  destruct ds as [|a [|b [|]]]; try discriminate.
  intros H. assert (Hv : 10 * digit_val a + digit_val b = v) by congruence.
  inversion A as [|? ? Ha A']; subst. inversion A' as [|? ? Hb _]; subst.
  apply is_digit_val in Ha, Hb. lia.
Qed.

Lemma field_d_range (s : string) (v : Z) (r : string) :
  field_d s = Some (v, r) -> 1 <= v <= 31.
Proof.
  unfold field_d.
  assert (G : field 1 31 s = Some (v, r) -> 1 <= v <= 31) by apply field_range.
  destruct s as [|c s']; [exact G|].
  destruct (Ascii.eqb c " ") eqn:E.
  - apply Ascii.eqb_eq in E. subst c.
    destruct (span_digits s') as [ds rest].
    destruct ds as [|a [|]]; try discriminate.
    unfold in_range. destruct (_ && _) eqn:E; [|discriminate]. intros H.
    assert (Hv : digit_val a = v) by congruence.
    apply andb_true_iff in E as [E1 E2]. apply Z.leb_le in E1, E2. lia.
  - intros H. apply G. rewrite <- H.
    destruct c as [[] [] [] [] [] [] [] []]; try reflexivity; discriminate.
Qed.

Lemma strptime_range (s : string) (dt : datetime) :
  strptime s = Return dt -> in_strptime_range dt.
Proof.
  unfold strptime. destruct (match_format s) as [[[[[[y m] d] hh] mm] ss]|] eqn:E;
    [|discriminate].
  unfold match_format in E.
  destruct (field_y s) as [[y' s1]|] eqn:Ey; simpl in E; [|discriminate].
  destruct (expect "/" s1) as [s2|]; simpl in E; [|discriminate].
  destruct (field 1 12 s2) as [[m' s3]|] eqn:Em; simpl in E; [|discriminate].
  destruct (expect "/" s3) as [s4|]; simpl in E; [|discriminate].
  destruct (field_d s4) as [[d' s5]|] eqn:Ed; simpl in E; [|discriminate].
  destruct (expect_spaces s5) as [s6|]; simpl in E; [|discriminate].
  destruct (field 0 23 s6) as [[h' s7]|] eqn:Eh; simpl in E; [|discriminate].
  destruct (expect ":" s7) as [s8|]; simpl in E; [|discriminate].
  destruct (field 0 59 s8) as [[i' s9]|] eqn:Ei; simpl in E; [|discriminate].
  destruct (expect ":" s9) as [s10|]; simpl in E; [|discriminate].
  destruct (field 0 61 s10) as [[c' s11]|] eqn:Ec; simpl in E; [|discriminate].
  destruct s11; [|discriminate]. injection E as -> -> -> -> -> ->.
  apply field_y_range in Ey. apply field_range in Em, Eh, Ei, Ec.
  apply field_d_range in Ed.
  destruct (days_in_month _ m <? d); [discriminate|].
  destruct (59 <? ss) eqn:Es; [discriminate|]. apply Z.ltb_ge in Es.
  intros [= <-]. unfold in_strptime_range. simpl.
  destruct (y <=? 68) eqn:E68; [apply Z.leb_le in E68|apply Z.leb_gt in E68]; lia.
Qed.


End Timestamps.

(** ** Loading *)

Section Loading.

Lemma largest_rowid_cons (r : row) (l : list row) :
  largest_rowid (r :: l) = Z.max (rowid r) (largest_rowid l).
Proof. reflexivity. Qed.

Lemma largest_rowid_nonneg (l : list row) : 0 <= largest_rowid l.
Proof.
  induction l as [|r l IH]; [reflexivity|]. rewrite largest_rowid_cons. lia.
Qed.

Lemma largest_rowid_app (l l' : list row) :
  largest_rowid (l ++ l') = Z.max (largest_rowid l) (largest_rowid l').
Proof.
  induction l as [|r l IH].
  - pose proof (largest_rowid_nonneg l'). change (largest_rowid []) with 0.
    cbn [List.app]. lia.
  - cbn [List.app]. rewrite !largest_rowid_cons, IH. lia.
Qed.

Lemma insert_entry_well_formed (db : database) (e : value) :
  well_formed_entry e = true ->
  let id := Z.max (largest_rowid (tbl_rows db)) (tbl_seq db) + 1 in
  insert_entry db e
  = Return (mk_database (tbl_name db) (tbl_columns db)
              (tbl_rows db ++ [record_of id e]) id).
Proof.
  unfold well_formed_entry, record_of, entry_fields, insert_entry, getitem.
  destruct e as [| | | | |items|]; try discriminate.
  destruct (dict_get_str "application_id" items) as [[| | |a| | |]|]; try discriminate;
  destruct (dict_get_str "message" items) as [[| | |m| | |]|]; try discriminate;
  destruct (dict_get_str "level" items) as [[| | |l| | |]|]; try discriminate;
  destruct (dict_get_str "time" items) as [[| | |t| | |]|]; try discriminate.
  simpl. destruct (strptime t) as [dt|]; [|discriminate]. reflexivity.
Qed.


Lemma records_from_app (k : Z) (es es' : list value) :
  records_from k (es ++ es')
  = (records_from k es ++ records_from (k + Z.of_nat (List.length es)) es')%list.
Proof.
  revert k. induction es as [|e es IH]; intros k.
  - simpl. now rewrite Z.add_0_r.
  - cbn [records_from List.app List.length]. rewrite IH. do 3 f_equal. lia.
Qed.

(** The inner loop on well-formed entries appends their records under the
    next ids. *)
Lemma insert_entries_well_formed (es : list value) (db : database) :
  forallb well_formed_entry es = true ->
  largest_rowid (tbl_rows db) <= tbl_seq db ->
  insert_entries db es
  = (mk_database (tbl_name db) (tbl_columns db)
       (tbl_rows db ++ records_from (tbl_seq db + 1) es)
       (tbl_seq db + Z.of_nat (List.length es)),
     Return tt).
Proof.
  revert db. induction es as [|e es IH]; intros db Hwf Hinv.
  - destruct db. simpl. now rewrite app_nil_r, Z.add_0_r.
  - cbn [forallb] in Hwf. apply andb_true_iff in Hwf as [He Hes].
    cbn [insert_entries]. rewrite (insert_entry_well_formed db e He).
    replace (Z.max (largest_rowid (tbl_rows db)) (tbl_seq db)) with (tbl_seq db) by lia.
    rewrite IH; [|exact Hes|].
    + cbn [tbl_name tbl_columns tbl_rows tbl_seq records_from List.length].
      rewrite <- app_assoc. cbn [List.app]. do 2 f_equal. lia.
    + cbn [tbl_rows tbl_seq]. rewrite largest_rowid_app.
      unfold record_of, well_formed_entry in *.
      destruct (entry_fields e) as [[[[a m] l] t]|]; [|discriminate].
      destruct (strptime t); [|discriminate].
      rewrite largest_rowid_cons. change (largest_rowid []) with 0. cbn [rowid].
      pose proof (largest_rowid_nonneg (tbl_rows db)). lia.
Qed.

Lemma load_file_ok (fs : filesystem) (db : database) (f : string) :
  file_ok (fs f) = true ->
  largest_rowid (tbl_rows db) <= tbl_seq db ->
  load_file fs db f
  = match fs f with
    | NoFile => (db, Raise (no_such_file f))
    | fl =>
        let es := file_entries fl in
        (mk_database (tbl_name db) (tbl_columns db)
           (tbl_rows db ++ records_from (tbl_seq db + 1) es)
           (tbl_seq db + Z.of_nat (List.length es)),
         Return (Z.of_nat (List.length es)))
    end.
Proof.
  intros Hok Hinv. unfold load_file, read_json, file_ok in *.
  destruct (fs f) as [| |doc]; [reflexivity|discriminate|].
  destruct doc as [| | | |es| |]; try discriminate.
  cbn [py_iter file_entries]. now rewrite insert_entries_well_formed.
Qed.

(** The outer loop on files that are absent or well-formed. *)
Lemma load_files_ok (fs : filesystem) (files : list string) (st : loader) :
  forallb (fun f => file_ok (fs f)) files = true ->
  largest_rowid (tbl_rows (ld_db st)) <= tbl_seq (ld_db st) ->
  let es := flat_map (fun f => file_entries (fs f)) files in
  load_files fs files st
  = (mk_loader
       (mk_database (tbl_name (ld_db st)) (tbl_columns (ld_db st))
          (tbl_rows (ld_db st) ++ records_from (tbl_seq (ld_db st) + 1) es)
          (tbl_seq (ld_db st) + Z.of_nat (List.length es)))
       (ld_total st + Z.of_nat (List.length es))
       (ld_out st ++ map (report_line fs) files),
     Return tt).
Proof.
  revert st. induction files as [|f files IH]; intros st Hok Hinv.
  - destruct st as [[n c r s] t o]. simpl. now rewrite !app_nil_r, !Z.add_0_r.
  - cbn [forallb] in Hok. apply andb_true_iff in Hok as [Hf Hfs].
    cbn [load_files flat_map map]. rewrite (load_file_ok fs _ f Hf Hinv).
    unfold report_line at 1.
    destruct (fs f) as [| |doc] eqn:Efs.
    + cbn [is_file_not_found no_such_file exn_cls file_entries List.app].
      rewrite IH; [|exact Hfs|exact Hinv]. cbn [ld_db ld_total ld_out].
      unfold print. now rewrite <- app_assoc.
    + discriminate.
    + cbv zeta. rewrite IH; [|exact Hfs|].
      * cbn [ld_db ld_total ld_out tbl_name tbl_columns tbl_rows tbl_seq].
        unfold print. rewrite records_from_app, length_app, Nat2Z.inj_add.
        rewrite <- !app_assoc. cbn [List.app].
        rewrite !Z.add_assoc.
        replace (tbl_seq (ld_db st) + Z.of_nat (List.length (file_entries (Json doc))) + 1)
          with (tbl_seq (ld_db st) + 1 + Z.of_nat (List.length (file_entries (Json doc))))
          by lia.
        reflexivity.
      * cbn [ld_db tbl_rows tbl_seq]. rewrite largest_rowid_app.
        assert (H : largest_rowid (records_from (tbl_seq (ld_db st) + 1) (file_entries (Json doc)))
                    <= tbl_seq (ld_db st) + Z.of_nat (List.length (file_entries (Json doc)))).
        { unfold file_ok in Hf. destruct doc as [| | | |es| |]; try discriminate.
          cbn [file_entries].
          assert (Hs : 0 <= tbl_seq (ld_db st)).
          { pose proof (largest_rowid_nonneg (tbl_rows (ld_db st))). lia. }
          revert Hs Hf. generalize (tbl_seq (ld_db st)). clear.
          induction es as [|e es IHes]; intros k Hk Hwf.
          - change (largest_rowid (records_from (k + 1) [])) with 0. cbn [List.length]. lia.
          - cbn [forallb] in Hwf. apply andb_true_iff in Hwf as [He Hes].
            cbn [records_from]. rewrite largest_rowid_cons.
            specialize (IHes (k + 1) ltac:(lia) Hes).
            unfold record_of, well_formed_entry in *.
            destruct (entry_fields e) as [[[[a m] l] t]|]; [|discriminate].
            destruct (strptime t); [|discriminate]. cbn [rowid List.length].
            lia. }
        lia.
Qed.

(** Initialization on files that are absent or well-formed: the lines
    printed and the store returned. *)
Lemma create_logs_database_ok (fs : filesystem) :
  files_ok fs = true ->
  create_logs_database fs
  = (print (map (report_line fs) json_files)
       ("Total: " ++ str_of_Z (Z.of_nat (List.length (loaded_entries fs)))
        ++ " log entries loaded into in-memory database"),
     Return (mk_database "logs" logs_columns (records_from 1 (loaded_entries fs))
               (Z.of_nat (List.length (loaded_entries fs))))).
Proof.
  intros Hok. unfold create_logs_database.
  rewrite load_files_ok; [|exact Hok|simpl; lia].
  reflexivity.
Qed.

End Loading.

(** ** The store after initialization *)

Section Store.

Lemma loaded_entries_well_formed (fs : filesystem) (files : list string) :
  forallb (fun f => file_ok (fs f)) files = true ->
  forallb well_formed_entry (flat_map (fun f => file_entries (fs f)) files) = true.
Proof.
  induction files as [|f files IH]; [reflexivity|].
  cbn [forallb flat_map]. intros H. apply andb_true_iff in H as [Hf Hfs].
  rewrite forallb_app, (IH Hfs), andb_true_r.
  unfold file_ok in Hf. destruct (fs f) as [| |[| | | |es| |]]; try discriminate; try reflexivity.
  exact Hf.
Qed.







(** C8: a missing file is skipped with a warning and the loop goes on with
    the files that remain, in the state that it had; with every file missing
    initialization returns the empty store and reports 0 entries; and with
    the other files well-formed it returns the store of their entries,
    having printed the warning of each missing file. *)
Theorem missing_files_skipped :
  (forall (fs : filesystem) (f : string) (rest : list string) (st : loader),
     fs f = NoFile ->
     load_files fs (f :: rest) st
     = load_files fs rest
         (mk_loader (ld_db st) (ld_total st) (print (ld_out st) (warning f))))
  /\ (forall fs : filesystem,
        (forall f, In f json_files -> fs f = NoFile) ->
        create_logs_database fs
        = ([warning "oom.json"; warning "disk.json"; warning "throttle.json";
            "Total: 0 log entries loaded into in-memory database"],
           Return empty_logs))
  /\ (forall fs : filesystem,
        files_ok fs = true ->
        exists out db,
          create_logs_database fs = (out, Return db)
          /\ tbl_rows db = records_from 1 (loaded_entries fs)
          /\ forall f, In f json_files -> fs f = NoFile -> In (warning f) out).
Proof.
  split; [|split].
  - intros fs f rest st Hf. cbn [load_files]. unfold load_file, read_json.
    rewrite Hf. reflexivity.
  - intros fs H. unfold create_logs_database, json_files.
    cbn [load_files]. unfold load_file, read_json.
    rewrite !H by (simpl; tauto). reflexivity.
  - intros fs Hok. rewrite (create_logs_database_ok fs Hok).
    do 2 eexists. split; [reflexivity|]. split; [reflexivity|].
    intros f Hin Hf. unfold print. apply in_or_app. left.
    apply in_map_iff. exists f. split; [|exact Hin].
    unfold report_line. now rewrite Hf.
Qed.

Lemma missing_files_skipped_witness :
  create_logs_database (fun _ => NoFile)
  = ([warning "oom.json"; warning "disk.json"; warning "throttle.json";
      "Total: 0 log entries loaded into in-memory database"],
     Return empty_logs)
  /\ exists out db,
       create_logs_database sample_files = (out, Return db)
       /\ tbl_rows db = records_from 1 (loaded_entries sample_files)
       /\ forall f, In f json_files -> sample_files f = NoFile -> In (warning f) out.
Proof.
  split.
  - exact (proj1 (proj2 missing_files_skipped) (fun _ => NoFile) (fun _ _ => eq_refl)).
  - exact (proj2 (proj2 missing_files_skipped) sample_files eq_refl).
Defined.

End Store.

(** ** Queries *)

Section Queries.

Lemma parse_select_time :
  parse "SELECT time FROM logs" = Some (mk_select (Column "time") "logs" None).
Proof. vm_compute. reflexivity. Qed.

Lemma parse_select_star :
  parse "SELECT * FROM logs" = Some (mk_select Star "logs" None).
Proof. vm_compute. reflexivity. Qed.

Lemma select_time_rows (rows : list row) (n : Z) :
  execute_query (mk_database "logs" logs_columns rows n) "SELECT time FROM logs"
  = Some (Return (map (fun r => [nth 4 r SqlNull]) rows)).
Proof.
  unfold execute_query, cursor_execute. rewrite parse_select_time. reflexivity.
Qed.

Lemma select_star_rows (rows : list row) (n : Z) :
  execute_query (mk_database "logs" logs_columns rows n) "SELECT * FROM logs"
  = Some (Return rows).
Proof.
  unfold execute_query, cursor_execute. rewrite parse_select_star.
  unfold run_select. cbn. now rewrite map_id.
Qed.








(** *** The schema of the store *)

Lemma insert_entry_schema (db db' : database) (e : value) :
  insert_entry db e = Return db' ->
  tbl_name db' = tbl_name db /\ tbl_columns db' = tbl_columns db.
Proof.
  unfold insert_entry, insert_log, bind.
  destruct (getitem e "time") as [t|]; [|discriminate].
  destruct (strptime_obj t) as [dt|]; [|discriminate].
  destruct (getitem e "application_id") as [a|]; [|discriminate].
  destruct (getitem e "message") as [m|]; [|discriminate].
  destruct (getitem e "level") as [l|]; [|discriminate].
  destruct (bind_param 1 a) as [a'|]; [|discriminate].
  destruct (bind_param 2 m) as [m'|]; [|discriminate].
  destruct (bind_param 3 l) as [l'|]; [|discriminate].
  intros [= <-]. split; reflexivity.
Qed.

Lemma insert_entries_schema (es : list value) (db db' : database) (o : outcome unit) :
  insert_entries db es = (db', o) ->
  tbl_name db' = tbl_name db /\ tbl_columns db' = tbl_columns db.
Proof.
  revert db. induction es as [|e es IH]; intros db; cbn [insert_entries].
  - intros [= <- _]. split; reflexivity.
  - destruct (insert_entry db e) as [db1|x] eqn:E.
    + intros H. apply IH in H. apply insert_entry_schema in E.
      destruct H as [-> ->]. exact E.
    + intros [= <- _]. split; reflexivity.
Qed.

Lemma load_file_schema (fs : filesystem) (db db' : database) (f : string) (o : outcome Z) :
  load_file fs db f = (db', o) ->
  tbl_name db' = tbl_name db /\ tbl_columns db' = tbl_columns db.
Proof.
  unfold load_file. destruct (read_json fs f) as [doc|x].
  - destruct (py_iter doc) as [es|x].
    + destruct (insert_entries db es) as [db1 [u|x]] eqn:E;
        intros [= <- _]; apply (insert_entries_schema _ _ _ _ E).
    + intros [= <- _]. split; reflexivity.
  - intros [= <- _]. split; reflexivity.
Qed.

Lemma load_files_schema (fs : filesystem) (files : list string) (st st' : loader)
    (o : outcome unit) :
  load_files fs files st = (st', o) ->
  tbl_name (ld_db st') = tbl_name (ld_db st)
  /\ tbl_columns (ld_db st') = tbl_columns (ld_db st).
Proof.
  revert st. induction files as [|f files IH]; intros st; cbn [load_files].
  - intros [= <- _]. split; reflexivity.
  - destruct (load_file fs (ld_db st) f) as [db [n|x]] eqn:E;
      apply load_file_schema in E.
    + intros H. apply IH in H. cbn [ld_db] in H. destruct H as [-> ->]. exact E.
    + destruct (is_file_not_found x).
      * intros H. apply IH in H. cbn [ld_db] in H. destruct H as [-> ->]. exact E.
      * intros [= <- _]. exact E.
Qed.

(** Every store that initialization returns has the table and the columns
    of the [CREATE TABLE] statement. *)
Lemma create_logs_database_schema (fs : filesystem) (out : list string) (db : database) :
  create_logs_database fs = (out, Return db) ->
  tbl_name db = "logs" /\ tbl_columns db = logs_columns.
Proof.
  unfold create_logs_database.
  destruct (load_files fs json_files _) as [st [u|x]] eqn:E; [|discriminate].
  intros [= _ <-]. apply (load_files_schema _ _ _ _ _ E).
Qed.

(** C2: the claim is that the query of the records of level ["ERROR"],
    written with the column [level], returns those records.  The table has
    no column [level] (the level is stored in [log_level]), so on every
    store that initialization returns the query raises. *)
Theorem select_level_error_raises (fs : filesystem) (out : list string) (conn : database) :
  create_logs_database fs = (out, Return conn) ->
  execute_query conn "SELECT * FROM logs WHERE level = 'ERROR'"
  = Some (Raise (mk_exn OperationalError "no such column: level")).
Proof.
  intros H. apply create_logs_database_schema in H as [Hn Hc].
  destruct conn as [n c r s]. cbn [tbl_name tbl_columns] in Hn, Hc. subst n c.
  vm_compute. reflexivity.
Qed.

Lemma select_level_error_raises_witness :
  execute_query
    (mk_database "logs" logs_columns (records_from 1 (loaded_entries sample_files)) 3)
    "SELECT * FROM logs WHERE level = 'ERROR'"
  = Some (Raise (mk_exn OperationalError "no such column: level")).
Proof.
  exact (select_level_error_raises sample_files _ _ (create_logs_database_ok sample_files eq_refl)).
Defined.

(** With the name that the column has, the query returns the records of
    that level, in the order of insertion. *)
Lemma select_log_level_error (rows : list row) (n : Z) :
  execute_query (mk_database "logs" logs_columns rows n)
    "SELECT * FROM logs WHERE log_level = 'ERROR'"
  = Some (Return (filter (fun r => text_equals "ERROR" (nth 3 r SqlNull)) rows)).
Proof.
  unfold execute_query, cursor_execute.
  replace (parse "SELECT * FROM logs WHERE log_level = 'ERROR'")
    with (Some (mk_select Star "logs" (Some ("log_level", "ERROR"))))
    by (vm_compute; reflexivity).
  unfold run_select. cbn. now rewrite map_id.
Qed.



End Queries.

(** ** Malformed files *)

Section Malformed.

Lemma getitem_raise (e : value) (k : string) (x : exn) :
  getitem e k = Raise x -> is_file_not_found x = false.
Proof.
  unfold getitem. destruct e as [| | | | |items|]; try (intros [= <-]; reflexivity).
  destruct (dict_get_str k items); [discriminate|]. intros [= <-]. reflexivity.
Qed.

Lemma strptime_raise (s : string) (x : exn) :
  strptime s = Raise x -> is_file_not_found x = false.
Proof.
  unfold strptime. destruct (match_format s) as [[[[[[y m] d] hh] mm] ss]|].
  - destruct (_ <? d); [intros [= <-]; reflexivity|].
    destruct (59 <? ss); [intros [= <-]; reflexivity|discriminate].
  - intros [= <-]. reflexivity.
Qed.

Lemma strptime_obj_raise (v : value) (x : exn) :
  strptime_obj v = Raise x -> is_file_not_found x = false.
Proof.
  unfold strptime_obj. destruct v; try (intros [= <-]; reflexivity).
  apply strptime_raise.
Qed.

Lemma bind_param_raise (i : nat) (v : value) (x : exn) :
  bind_param i v = Raise x -> is_file_not_found x = false.
Proof.
  unfold bind_param. destruct v as [|b|n| | | |]; try discriminate;
    try (intros [= <-]; reflexivity).
  destruct (_ && _); [discriminate|]. intros [= <-]. reflexivity.
Qed.

(** No step of the inner loop raises what the handler of the outer loop
    catches. *)
Lemma insert_entry_raise (db : database) (e : value) (x : exn) :
  insert_entry db e = Raise x -> is_file_not_found x = false.
Proof.
  unfold insert_entry, insert_log, bind.
  destruct (getitem e "time") as [t|x0] eqn:E1;
    [|intros [= <-]; apply (getitem_raise _ _ _ E1)].
  destruct (strptime_obj t) as [dt|x0] eqn:E2;
    [|intros [= <-]; apply (strptime_obj_raise _ _ E2)].
  destruct (getitem e "application_id") as [a|x0] eqn:E3;
    [|intros [= <-]; apply (getitem_raise _ _ _ E3)].
  destruct (getitem e "message") as [m|x0] eqn:E4;
    [|intros [= <-]; apply (getitem_raise _ _ _ E4)].
  destruct (getitem e "level") as [l|x0] eqn:E5;
    [|intros [= <-]; apply (getitem_raise _ _ _ E5)].
  destruct (bind_param 1 a) as [a'|x0] eqn:E6;
    [|intros [= <-]; apply (bind_param_raise _ _ _ E6)].
  destruct (bind_param 2 m) as [m'|x0] eqn:E7;
    [|intros [= <-]; apply (bind_param_raise _ _ _ E7)].
  destruct (bind_param 3 l) as [l'|x0] eqn:E8;
    [|intros [= <-]; apply (bind_param_raise _ _ _ E8)].
  discriminate.
Qed.

(** A malformed entry makes its turn of the loop raise. *)
Lemma insert_entry_malformed (db db' : database) (e : value) :
  missing_field e || bad_timestamp e = true -> insert_entry db e <> Return db'.
Proof.
  intros H R. unfold insert_entry, bind in R.
  destruct e as [| | | | |items|]; try discriminate.
  unfold getitem in R. unfold missing_field, bad_timestamp, required_fields in H.
  cbn [existsb] in H.
  destruct (dict_get_str "time" items) as [t|]; [|discriminate].
  destruct (strptime_obj t) as [dt|] eqn:Et; [|discriminate].
  destruct (dict_get_str "application_id" items); [|discriminate].
  destruct (dict_get_str "message" items); [|discriminate].
  destruct (dict_get_str "level" items); [|discriminate].
  cbn [orb] in H. destruct t; try discriminate.
  cbn [strptime_obj] in Et. rewrite Et in H. discriminate.
Qed.

Lemma insert_entries_malformed (es : list value) (db : database) :
  existsb (fun e => missing_field e || bad_timestamp e) es = true ->
  exists db' x, insert_entries db es = (db', Raise x) /\ is_file_not_found x = false.
Proof.
  revert db. induction es as [|e es IH]; intros db H; [discriminate|].
  cbn [existsb] in H. cbn [insert_entries].
  destruct (insert_entry db e) as [db1|x] eqn:E.
  - apply IH. destruct (missing_field e || bad_timestamp e) eqn:M; [|exact H].
    exfalso. exact (insert_entry_malformed _ _ _ M E).
  - exists db, x. split; [reflexivity|]. apply (insert_entry_raise _ _ _ E).
Qed.

Lemma load_file_malformed (fs : filesystem) (db : database) (f : string) :
  malformed_file (fs f) = true ->
  exists db' x, load_file fs db f = (db', Raise x) /\ is_file_not_found x = false.
Proof.
  unfold malformed_file, load_file, read_json.
  destruct (fs f) as [| |doc]; [discriminate| |].
  - intros _. do 2 eexists. split; reflexivity.
  - destruct doc as [| | | |es| |]; try discriminate. intros H.
    cbn [py_iter]. destruct (insert_entries_malformed es db H) as (db' & x & -> & Hx).
    exists db', x. split; [reflexivity|exact Hx].
Qed.

Lemma load_files_malformed (fs : filesystem) (files : list string) (f : string) :
  In f files -> malformed_file (fs f) = true ->
  forall st, exists st' x,
    load_files fs files st = (st', Raise x) /\ is_file_not_found x = false.
Proof.
  intros Hin Hbad. induction files as [|g files IH]; [contradiction|].
  intros st. cbn [load_files]. destruct Hin as [->|Hin].
  - destruct (load_file_malformed fs (ld_db st) f Hbad) as (db' & x & -> & Hx).
    rewrite Hx. do 2 eexists. split; [reflexivity|exact Hx].
  - destruct (load_file fs (ld_db st) g) as [db [n|x]]; [apply (IH Hin)|].
    destruct (is_file_not_found x) eqn:Hx; [apply (IH Hin)|].
    do 2 eexists. split; [reflexivity|exact Hx].
Qed.

(** C10: when one of the three files is there and is malformed (not JSON,
    or with an entry that lacks a required field or has a timestamp that
    cannot be parsed), initialization raises an exception that is not a
    [FileNotFoundError], which no handler catches: no store is returned. *)
Theorem malformed_file_aborts (fs : filesystem) (f : string) :
  In f json_files ->
  malformed_file (fs f) = true ->
  exists out e,
    create_logs_database fs = (out, Raise e) /\ is_file_not_found e = false.
Proof.
  intros Hin Hbad. unfold create_logs_database.
  destruct (load_files_malformed fs json_files f Hin Hbad (mk_loader empty_logs 0 []))
    as (st' & x & -> & Hx).
  exists (ld_out st'), x. split; [reflexivity|exact Hx].
Qed.

Lemma malformed_file_aborts_witness :
  exists out e,
    create_logs_database broken_files = (out, Raise e) /\ is_file_not_found e = false.
Proof.
  apply (malformed_file_aborts broken_files "disk.json").
  - simpl. tauto.
  - reflexivity.
Defined.

End Malformed.

(** * Further properties *)

(** ** [extract_agent_response] on the shapes of results *)

Section Shapes.

Lemma messages_branch (items : list (value * value)) (messages : value) :
  dict_get_str "messages" items = Some messages ->
  extract_agent_response (VDict items)
  = if truthy messages then
      last_message <- subscript_last messages ;; getattr last_message "content"
    else Return (VStr "No messages found in result").
Proof.
  intros H. unfold extract_agent_response, dict_contains, getitem.
  cbn [isinstance_dict]. rewrite H. reflexivity.
Qed.

Lemma else_branch_dict (items : list (value * value)) (r : string) :
  dict_get_str "messages" items = None ->
  py_str (VDict items) = Return r ->
  extract_agent_response (VDict items) = Return (VStr (dict_error_text r)).
Proof.
  intros H R. unfold extract_agent_response, dict_contains.
  cbn [isinstance_dict]. rewrite H. cbn [andb hasattr_get call_get bind try_except].
  unfold error_text. rewrite R. reflexivity.
Qed.

Lemma else_branch_no_get (result : value) (s : string) :
  hasattr_get result = false ->
  py_str result = Return s ->
  extract_agent_response result = Return (VStr s).
Proof.
  intros Hh Hs. unfold extract_agent_response.
  assert (Hd : isinstance_dict result = false)
    by (destruct result; try reflexivity; discriminate).
  rewrite Hd, Hh. cbn [andb bind]. rewrite Hs. reflexivity.
Qed.

(** X1: a dict whose ["messages"] is empty or otherwise false ([[]], [None],
    [""], [0], [{}]) gets the fixed text, whatever else the dict holds. *)
Theorem extract_no_messages (items : list (value * value)) (messages : value) :
  dict_get_str "messages" items = Some messages ->
  truthy messages = false ->
  extract_agent_response (VDict items) = Return (VStr "No messages found in result").
Proof.
  intros H T. rewrite (messages_branch _ _ H), T. reflexivity.
Qed.

Lemma extract_no_messages_witness :
  extract_agent_response (VDict [(VStr "thread", VInt 3); (VStr "messages", VNone)])
  = Return (VStr "No messages found in result").
Proof.
  apply (extract_no_messages _ VNone); reflexivity.
Defined.

(** X2: of a list of messages only the last one is looked at: the outcome is
    that of reading its [content], whatever the messages before it and the
    other keys of the dict are. *)
Theorem extract_reads_last_only (items : list (value * value)) (ms : list value)
    (m : value) :
  dict_get_str "messages" items = Some (VList (ms ++ [m])) ->
  extract_agent_response (VDict items) = getattr m "content".
Proof.
  intros H. rewrite (messages_branch _ _ H), truthy_snoc, last_of_snoc. reflexivity.
Qed.

Lemma extract_reads_last_only_witness :
  extract_agent_response
    (VDict [(VStr "messages", VList ([VInt 1; VStr "x"] ++ [message_object (VStr "done")]))])
  = getattr (message_object (VStr "done")) "content".
Proof.
  apply (extract_reads_last_only _ [VInt 1; VStr "x"]). reflexivity.
Defined.

(** X3: a dict without a ["messages"] key never yields what it holds: its
    [get] is called without a key and raises, and the result is the error
    text with the dict printed in it. *)
Theorem extract_dict_without_messages (items : list (value * value)) (r : string) :
  dict_get_str "messages" items = None ->
  py_str (VDict items) = Return r ->
  extract_agent_response (VDict items) = Return (VStr (dict_error_text r)).
Proof. exact (else_branch_dict items r). Qed.

Lemma extract_dict_without_messages_witness :
  extract_agent_response (VDict [(VStr "output", VStr "hello")])
  = Return (VStr (dict_error_text "{'output': 'hello'}")).
Proof.
  apply extract_dict_without_messages; reflexivity.
Defined.

(** X4: a result that has no [get] and that [str] accepts is returned as its
    text; a text is returned as it is. *)
Theorem extract_without_accessor :
  (forall (result : value) (s : string),
     hasattr_get result = false ->
     py_str result = Return s ->
     extract_agent_response result = Return (VStr s))
  /\ (forall s : string, extract_agent_response (VStr s) = Return (VStr s)).
Proof.
  split; [exact else_branch_no_get|].
  intros s. apply else_branch_no_get; reflexivity.
Qed.

Lemma extract_without_accessor_witness :
  extract_agent_response (VList [VInt 1; VStr "a"; VNone]) = Return (VStr "[1, 'a', None]").
Proof.
  apply (proj1 extract_without_accessor); reflexivity.
Defined.





Lemma plain_dict_find (p : value -> bool) (items : list (value * value)) (x : value) :
  plain (VDict items) = true -> dict_find p items = Some x -> plain x = true.
Proof.
  cbn [plain]. induction items as [|[k y] items IH]; [discriminate|].
  cbn [forallb fst snd dict_find]. intros H. apply andb_true_iff in H as [Hky Hl].
  apply andb_true_iff in Hky as [_ Hy].
  destruct (p k); [intros [= <-]; exact Hy|apply (IH Hl)].
Qed.

Lemma getattr_plain (v : value) (name : string) :
  plain v = true -> getattr v name = Raise (no_attribute v name).
Proof. destruct v; try reflexivity. discriminate. Qed.

(** X6: on a dict of data without objects, a ["messages"] that is not empty
    never gives a response: reading [messages[-1].content] raises. *)
Theorem extract_plain_messages_raises (items : list (value * value)) (messages : value) :
  plain (VDict items) = true ->
  dict_get_str "messages" items = Some messages ->
  truthy messages = true ->
  exists e, extract_agent_response (VDict items) = Raise e.
Proof.
  intros Hp Hm Ht. rewrite (messages_branch _ _ Hm), Ht.
  assert (Pm : plain messages = true) by (apply (plain_dict_find _ _ _ Hp Hm)).
  destruct (subscript_last messages) as [last|x] eqn:El; [|eexists; reflexivity].
  cbn [bind]. eexists. apply getattr_plain.
  unfold subscript_last in El.
  destruct messages as [|b|n|s|l|inner|o]; try discriminate.
  - destruct s; [discriminate|]. injection El as <-. reflexivity.
  - destruct (rev l) as [|x rest] eqn:Er; [discriminate|]. injection El as <-.
    cbn [plain] in Pm. rewrite forallb_forall in Pm. apply Pm.
    apply in_rev. rewrite Er. left. reflexivity.
  - destruct (dict_find (key_is_int (-1)) inner) as [x|] eqn:Ef; [|discriminate].
    injection El as <-. apply (plain_dict_find _ _ _ Pm Ef).
Qed.

Lemma extract_plain_messages_raises_witness :
  exists e,
    extract_agent_response
      (VDict [(VStr "messages",
               VList [VDict [(VStr "role", VStr "user"); (VStr "content", VStr "hi")]])])
    = Raise e.
Proof.
  apply (extract_plain_messages_raises _
           (VList [VDict [(VStr "role", VStr "user"); (VStr "content", VStr "hi")]]));
    reflexivity.
Defined.

End Shapes.

(** ** Every store that initialization returns *)

Section Runs.

Lemma count_from_snoc (k : Z) (n : nat) :
  count_from k (S n) = (count_from k n ++ [k + Z.of_nat n])%list.
Proof.
  revert k. induction n as [|n IH]; intros k.
  - cbn. now rewrite Z.add_0_r.
  - change (count_from k (S (S n))) with (k :: count_from (k + 1) (S n)).
    rewrite IH. cbn [count_from List.app]. do 3 f_equal. lia.
Qed.

Lemma count_from_upper (k : Z) (n : nat) :
  Forall (fun x => x < k + Z.of_nat n) (count_from k n).
Proof.
  revert k. induction n as [|n IH]; intros k; cbn [count_from]; constructor; [lia|].
  eapply Forall_impl; [|apply IH]. cbv beta. intros. lia.
Qed.

Lemma largest_rowid_bound (rows : list row) (b : Z) :
  0 <= b -> (forall r, In r rows -> rowid r <= b) -> largest_rowid rows <= b.
Proof.
  intros Hb. induction rows as [|r rows IH]; intros H.
  - change (largest_rowid []) with 0. exact Hb.
  - rewrite largest_rowid_cons.
    assert (rowid r <= b) by (apply H; left; reflexivity).
    assert (largest_rowid rows <= b) by (apply IH; intros; apply H; right; assumption).
    lia.
Qed.

Lemma store_ok_largest (db : database) :
  store_ok db -> largest_rowid (tbl_rows db) <= tbl_seq db.
Proof.
  intros (Hids & Hseq & _). rewrite Hseq. apply largest_rowid_bound; [lia|].
  intros r Hr. apply (in_map rowid) in Hr. rewrite Hids in Hr.
  pose proof (count_from_upper 1 (List.length (tbl_rows db))) as U.
  rewrite Forall_forall in U. specialize (U _ Hr). lia.
Qed.

Lemma strptime_obj_range (t : value) (dt : datetime) :
  strptime_obj t = Return dt -> in_strptime_range dt.
Proof.
  destruct t; try discriminate. apply strptime_range.
Qed.

(** One turn of the inner loop that does not raise appends one row and keeps
    the store in order. *)
Lemma insert_entry_step (db db' : database) (e : value) :
  insert_entry db e = Return db' ->
  store_ok db ->
  store_ok db' /\ List.length (tbl_rows db') = S (List.length (tbl_rows db)).
Proof.
  intros H Hok. pose proof (store_ok_largest db Hok) as Hl.
  destruct Hok as (Hids & Hseq & Hfirst & Htime).
  unfold insert_entry, insert_log, bind in H.
  destruct (getitem e "time") as [t|]; [|discriminate].
  destruct (strptime_obj t) as [dt|] eqn:Et; [|discriminate].
  destruct (getitem e "application_id") as [a|]; [|discriminate].
  destruct (getitem e "message") as [m|]; [|discriminate].
  destruct (getitem e "level") as [l|]; [|discriminate].
  destruct (bind_param 1 a) as [a'|]; [|discriminate].
  destruct (bind_param 2 m) as [m'|]; [|discriminate].
  destruct (bind_param 3 l) as [l'|]; [|discriminate].
  injection H as <-. unfold store_ok. cbn [tbl_rows tbl_seq].
  replace (Z.max (largest_rowid (tbl_rows db)) (tbl_seq db)) with (tbl_seq db) by lia.
  rewrite length_app, map_app. cbn [List.length map rowid].
  rewrite Nat.add_1_r, count_from_snoc, Hids, Hseq.
  repeat split.
  - do 2 f_equal. lia.
  - lia.
  - apply Forall_app. split; [exact Hfirst|]. constructor; [reflexivity|constructor].
  - apply Forall_app. split; [exact Htime|]. constructor; [|constructor].
    exists dt. split; [reflexivity|]. apply (strptime_obj_range t), Et.
Qed.

Lemma insert_entries_run (es : list value) (db db' : database) (o : outcome unit) :
  insert_entries db es = (db', o) ->
  store_ok db ->
  store_ok db'
  /\ (o = Return tt ->
      List.length (tbl_rows db') = (List.length (tbl_rows db) + List.length es)%nat).
Proof.
  revert db. induction es as [|e es IH]; intros db; cbn [insert_entries].
  - intros [= <- <-] Hok. split; [exact Hok|]. intros _. cbn. lia.
  - destruct (insert_entry db e) as [db1|x] eqn:E.
    + intros H Hok. destruct (insert_entry_step _ _ _ E Hok) as [Hok1 L1].
      destruct (IH _ H Hok1) as [Hok' L']. split; [exact Hok'|].
      intros Ho. rewrite (L' Ho), L1. cbn [List.length]. lia.
    + intros [= <- <-] Hok. split; [exact Hok|]. discriminate.
Qed.

Lemma insert_entries_raise (es : list value) (db db' : database) (x : exn) :
  insert_entries db es = (db', Raise x) -> is_file_not_found x = false.
Proof.
  revert db. induction es as [|e es IH]; intros db; cbn [insert_entries]; [discriminate|].
  destruct (insert_entry db e) as [db2|y] eqn:Ee; [apply IH|].
  intros [= _ <-]. apply (insert_entry_raise _ _ _ Ee).
Qed.

Lemma chars_length (s : string) : List.length (chars s) = String.length s.
Proof. induction s; cbn [chars List.length String.length]; [reflexivity|now rewrite IHs]. Qed.

Lemma iter_len (doc : value) (es : list value) (n : Z) :
  py_iter doc = Return es -> py_len doc = Return n -> n = Z.of_nat (List.length es).
Proof.
  destruct doc; try discriminate; cbn [py_iter py_len]; intros [= <-] [= <-].
  - now rewrite chars_length.
  - reflexivity.
  - now rewrite length_map.
Qed.

(** The body of the [try] for one file: the store stays in order; when the
    body ends, the number that it gives is the number of rows added; and
    when it raises what the handler catches, no row has been added. *)
Lemma load_file_run (fs : filesystem) (db db' : database) (f : string) (o : outcome Z) :
  load_file fs db f = (db', o) ->
  store_ok db ->
  store_ok db'
  /\ match o with
     | Return n => Z.of_nat (List.length (tbl_rows db')) = Z.of_nat (List.length (tbl_rows db)) + n
     | Raise x => is_file_not_found x = true -> db' = db
     end.
Proof.
  unfold load_file. intros H Hok.
  destruct (read_json fs f) as [doc|x] eqn:Er.
  - destruct (py_iter doc) as [es|x] eqn:Ei.
    + destruct (insert_entries db es) as [db1 [u|x]] eqn:E.
      * injection H as <- <-. destruct (insert_entries_run _ _ _ _ E Hok) as [Hok' L].
        split; [exact Hok'|]. destruct u.
        destruct (py_len doc) as [n|x] eqn:El.
        -- rewrite (L eq_refl), (iter_len _ _ _ Ei El). lia.
        -- destruct doc; discriminate.
      * injection H as <- <-. destruct (insert_entries_run _ _ _ _ E Hok) as [Hok' _].
        split; [exact Hok'|]. intros Hx. exfalso.
        pose proof (insert_entries_raise _ _ _ _ E). congruence.
    + injection H as <- <-. split; [exact Hok|reflexivity].
  - injection H as <- <-. split; [exact Hok|reflexivity].
Qed.

Lemma load_files_run (fs : filesystem) (files : list string) (st st' : loader) :
  load_files fs files st = (st', Return tt) ->
  store_ok (ld_db st) ->
  store_ok (ld_db st')
  /\ ld_total st' - Z.of_nat (List.length (tbl_rows (ld_db st')))
     = ld_total st - Z.of_nat (List.length (tbl_rows (ld_db st))).
Proof.
  revert st. induction files as [|f files IH]; intros st; cbn [load_files].
  - intros [= <-] Hok. split; [exact Hok|reflexivity].
  - destruct (load_file fs (ld_db st) f) as [db [n|x]] eqn:E;
      intros H Hok; destruct (load_file_run _ _ _ _ _ E Hok) as [Hok1 L].
    + destruct (IH _ H Hok1) as [Hok' T]. split; [exact Hok'|].
      rewrite T. cbn [ld_db ld_total]. lia.
    + destruct (is_file_not_found x) eqn:Hx; [|discriminate].
      destruct (IH _ H Hok1) as [Hok' T]. split; [exact Hok'|].
      rewrite T. cbn [ld_db ld_total]. now rewrite (L eq_refl).
Qed.

Lemma store_ok_empty : store_ok empty_logs.
Proof. repeat split; constructor. Qed.

(** Whatever the files hold, a store that initialization returns is in
    order and the total that it counted is the number of its rows. *)
Lemma create_logs_database_run (fs : filesystem) (out : list string) (db : database) :
  create_logs_database fs = (out, Return db) ->
  store_ok db /\ exists lines, out = print lines (total_line (List.length (tbl_rows db))).
Proof.
  unfold create_logs_database.
  destruct (load_files fs json_files _) as [st [[]|x]] eqn:E; [|discriminate].
  intros [= <- <-].
  destruct (load_files_run _ _ _ _ E store_ok_empty) as [Hok T].
  split; [exact Hok|]. exists (ld_out st). unfold total_line.
  cbn [ld_db ld_total tbl_rows empty_logs List.length] in T.
  replace (ld_total st) with (Z.of_nat (List.length (tbl_rows (ld_db st)))) by lia.
  reflexivity.
Qed.

(** X7: whatever the files hold (arrays, objects, texts, entries with
    numbers or nulls), when initialization returns, the last line that it
    has printed gives as the total the number of records in the store, which
    is also the number of rows that the query of the whole table returns. *)
Theorem reported_total_is_row_count (fs : filesystem) (out : list string) (db : database) :
  create_logs_database fs = (out, Return db) ->
  last out "" = total_line (List.length (tbl_rows db))
  /\ tbl_seq db = Z.of_nat (List.length (tbl_rows db))
  /\ execute_query db "SELECT * FROM logs" = Some (Return (tbl_rows db)).
Proof.
  intros H. destruct (create_logs_database_run _ _ _ H) as [(_ & Hseq & _) [lines ->]].
  destruct (create_logs_database_schema _ _ _ H) as [Hn Hc].
  split; [unfold print; apply last_last|]. split; [exact Hseq|].
  destruct db as [name cols rows seq]. cbn [tbl_name tbl_columns tbl_rows] in *.
  subst name cols. apply select_star_rows.
Qed.

Lemma reported_total_is_row_count_witness :
  exists out db,
    create_logs_database loose_files = (out, Return db)
    /\ last out "" = total_line (List.length (tbl_rows db))
    /\ tbl_seq db = Z.of_nat (List.length (tbl_rows db))
    /\ execute_query db "SELECT * FROM logs" = Some (Return (tbl_rows db)).
Proof.
  pose (run := create_logs_database loose_files).
  exists (fst run), (match snd run with Return db => db | Raise _ => empty_logs end).
  assert (E : create_logs_database loose_files
              = (fst run, Return (match snd run with Return db => db | Raise _ => empty_logs end)))
    by (vm_compute; reflexivity).
  split; [exact E|]. exact (reported_total_is_row_count _ _ _ E).
Defined.

Lemma select_id_rows (rows : list row) (n : Z) :
  execute_query (mk_database "logs" logs_columns rows n) "SELECT id FROM logs"
  = Some (Return (map (fun r => [nth 0 r SqlNull]) rows)).
Proof.
  unfold execute_query, cursor_execute.
  replace (parse "SELECT id FROM logs") with (Some (mk_select (Column "id") "logs" None))
    by (vm_compute; reflexivity).
  reflexivity.
Qed.

(** X8: whatever the files hold, when initialization returns, the ids of the
    store are 1, 2, ..., n in the order of the rows, and the query of the
    [id] column returns them so. *)
Theorem returned_store_ids (fs : filesystem) (out : list string) (db : database) :
  create_logs_database fs = (out, Return db) ->
  map rowid (tbl_rows db) = count_from 1 (List.length (tbl_rows db))
  /\ execute_query db "SELECT id FROM logs"
     = Some (Return (map (fun k => [SqlInt k]) (count_from 1 (List.length (tbl_rows db))))).
Proof.
  intros H. destruct (create_logs_database_run _ _ _ H) as [(Hids & _ & Hfirst & _) _].
  destruct (create_logs_database_schema _ _ _ H) as [Hn Hc].
  split; [exact Hids|]. destruct db as [name cols rows seq].
  cbn [tbl_name tbl_columns tbl_rows] in *. subst name cols.
  rewrite select_id_rows, <- Hids, map_map. do 2 f_equal.
  apply map_ext_in. intros r Hr. rewrite Forall_forall in Hfirst.
  now rewrite (Hfirst r Hr).
Qed.

Lemma returned_store_ids_witness :
  exists out db,
    create_logs_database loose_files = (out, Return db)
    /\ map rowid (tbl_rows db) = count_from 1 (List.length (tbl_rows db))
    /\ execute_query db "SELECT id FROM logs"
       = Some (Return (map (fun k => [SqlInt k]) (count_from 1 (List.length (tbl_rows db))))).
Proof.
  pose (run := create_logs_database loose_files).
  exists (fst run), (match snd run with Return db => db | Raise _ => empty_logs end).
  assert (E : create_logs_database loose_files
              = (fst run, Return (match snd run with Return db => db | Raise _ => empty_logs end)))
    by (vm_compute; reflexivity).
  split; [exact E|]. exact (returned_store_ids _ _ _ E).
Defined.

(** X9: whatever the files hold, when initialization returns, every value
    of the [time] column is the ISO text of a [datetime] between the years
    1969 and 2068 (the span of a two-digit year), and that text denotes that
    [datetime]. *)
Theorem returned_store_times (fs : filesystem) (out : list string) (db : database) :
  create_logs_database fs = (out, Return db) ->
  exists times,
    execute_query db "SELECT time FROM logs" = Some (Return times)
    /\ List.length times = List.length (tbl_rows db)
    /\ Forall (fun r => exists dt, r = [SqlText (isoformat dt)]
                                   /\ 1969 <= year dt <= 2068
                                   /\ instant_of_text (isoformat dt) = Some dt) times.
Proof.
  intros H. destruct (create_logs_database_run _ _ _ H) as [(_ & _ & _ & Htime) _].
  destruct (create_logs_database_schema _ _ _ H) as [Hn Hc].
  destruct db as [name cols rows seq].
  cbn [tbl_name tbl_columns tbl_rows] in *. subst name cols.
  rewrite select_time_rows. eexists. split; [reflexivity|]. split; [apply length_map|].
  apply Forall_map. eapply Forall_impl; [|exact Htime].
  cbv beta. intros r [dt [-> R]]. exists dt. split; [reflexivity|].
  split; [apply R|apply instant_of_isoformat, R].
Qed.

Lemma returned_store_times_witness :
  exists out db times,
    create_logs_database loose_files = (out, Return db)
    /\ execute_query db "SELECT time FROM logs" = Some (Return times)
    /\ List.length times = List.length (tbl_rows db)
    /\ Forall (fun r => exists dt, r = [SqlText (isoformat dt)]
                                   /\ 1969 <= year dt <= 2068
                                   /\ instant_of_text (isoformat dt) = Some dt) times.
Proof.
  pose (run := create_logs_database loose_files).
  exists (fst run), (match snd run with Return db => db | Raise _ => empty_logs end).
  assert (E : create_logs_database loose_files
              = (fst run, Return (match snd run with Return db => db | Raise _ => empty_logs end)))
    by (vm_compute; reflexivity).
  destruct (returned_store_times _ _ _ E) as [times T].
  exists times. split; [exact E|exact T].
Defined.

End Runs.

(** ** Which entries load *)

Section Acceptance.





Lemma entry_fields_text (e : value) (a m l t : string) :
  entry_fields e = Some (a, m, l, t) ->
  entry_text "application_id" e = a /\ entry_text "message" e = m
  /\ entry_text "level" e = l /\ entry_text "time" e = t.
Proof.
  unfold entry_fields, entry_text. destruct e as [| | | | |items|]; try discriminate.
  destruct (dict_get_str "application_id" items) as [[| | |a'| | |]|]; try discriminate;
  destruct (dict_get_str "message" items) as [[| | |m'| | |]|]; try discriminate;
  destruct (dict_get_str "level" items) as [[| | |l'| | |]|]; try discriminate;
  destruct (dict_get_str "time" items) as [[| | |t'| | |]|]; try discriminate.
  intros [= -> -> -> ->]. repeat split.
Qed.

Lemma record_of_well_formed (k : Z) (e : value) :
  well_formed_entry e = true ->
  exists dt,
    record_of k e
    = [SqlInt k; SqlText (entry_text "application_id" e); SqlText (entry_text "message" e);
       SqlText (entry_text "level" e); SqlText (isoformat dt)].
Proof.
  unfold well_formed_entry, record_of.
  destruct (entry_fields e) as [[[[a m] l] t]|] eqn:E; [|discriminate].
  destruct (entry_fields_text _ _ _ _ _ E) as (-> & -> & -> & _).
  destruct (strptime t) as [dt|]; [|discriminate]. intros _. exists dt. reflexivity.
Qed.

Lemma select_column_rows (rows : list row) (n : Z) (query c : string) (i : nat) (a : affinity) :
  parse query = Some (mk_select (Column c) "logs" None) ->
  find_column c logs_columns 0 = Some (i, a) ->
  execute_query (mk_database "logs" logs_columns rows n) query
  = Some (Return (map (fun r => [nth i r SqlNull]) rows)).
Proof.
  intros Hp Hf. unfold execute_query, cursor_execute, run_select. rewrite Hp.
  cbn [sel_table sel_proj sel_where tbl_name tbl_columns tbl_rows].
  rewrite Hf. reflexivity.
Qed.

Lemma project_records (i : nat) (key : string) (k : Z) (es : list value) :
  (forall id e, well_formed_entry e = true ->
                nth i (record_of id e) SqlNull = SqlText (entry_text key e)) ->
  forallb well_formed_entry es = true ->
  map (fun r => [nth i r SqlNull]) (records_from k es)
  = map (fun e => [SqlText (entry_text key e)]) es.
Proof.
  intros P. revert k. induction es as [|e es IH]; intros k H; [reflexivity|].
  cbn [forallb] in H. apply andb_true_iff in H as [He Hes].
  cbn [records_from map]. now rewrite (P k e He), (IH _ Hes).
Qed.

(** X11: after initialization on well-formed entries, the columns
    [spark_app_id], [log_message] and [log_level] give back, entry by entry
    and in the order of loading, the texts of [application_id], [message]
    and [level] as they were in the files. *)
Theorem text_columns_round_trip (fs : filesystem) :
  files_ok fs = true ->
  exists out db,
    create_logs_database fs = (out, Return db)
    /\ execute_query db "SELECT spark_app_id FROM logs"
       = Some (Return (map (fun e => [SqlText (entry_text "application_id" e)])
                         (loaded_entries fs)))
    /\ execute_query db "SELECT log_message FROM logs"
       = Some (Return (map (fun e => [SqlText (entry_text "message" e)]) (loaded_entries fs)))
    /\ execute_query db "SELECT log_level FROM logs"
       = Some (Return (map (fun e => [SqlText (entry_text "level" e)]) (loaded_entries fs))).
Proof.
  intros Hok. rewrite (create_logs_database_ok fs Hok).
  pose proof (loaded_entries_well_formed fs _ Hok) as W. fold (loaded_entries fs) in W.
  do 2 eexists. split; [reflexivity|].
  rewrite (select_column_rows _ _ "SELECT spark_app_id FROM logs" "spark_app_id" 1 AffText)
    by (vm_compute; reflexivity).
  rewrite (select_column_rows _ _ "SELECT log_message FROM logs" "log_message" 2 AffText)
    by (vm_compute; reflexivity).
  rewrite (select_column_rows _ _ "SELECT log_level FROM logs" "log_level" 3 AffText)
    by (vm_compute; reflexivity).
  repeat split; do 2 f_equal; apply project_records; try exact W;
    intros id e He; destruct (record_of_well_formed id e He) as [dt ->]; reflexivity.
Qed.

Lemma text_columns_round_trip_witness :
  exists out db,
    create_logs_database sample_files = (out, Return db)
    /\ execute_query db "SELECT spark_app_id FROM logs"
       = Some (Return [[SqlText "app-1"]; [SqlText "app-1"]; [SqlText "app-2"]])
    /\ execute_query db "SELECT log_message FROM logs"
       = Some (Return [[SqlText "java.lang.OutOfMemoryError"]; [SqlText "Starting executor"];
                       [SqlText "SlowDown"]])
    /\ execute_query db "SELECT log_level FROM logs"
       = Some (Return [[SqlText "ERROR"]; [SqlText "INFO"]; [SqlText "ERROR"]]).
Proof.
  exact (text_columns_round_trip sample_files eq_refl).
Defined.

Lemma filter_records (lvl : string) (k : Z) (es : list value) :
  forallb well_formed_entry es = true ->
  filter (fun r => text_equals lvl (nth 3 r SqlNull)) (records_from k es)
  = records_where (has_level lvl) k es.
Proof.
  revert k. induction es as [|e es IH]; intros k H; [reflexivity|].
  cbn [forallb] in H. apply andb_true_iff in H as [He Hes].
  cbn [records_from records_where filter]. rewrite (IH _ Hes).
  destruct (record_of_well_formed k e He) as [dt E]. rewrite E.
  cbn [nth text_equals]. unfold has_level. rewrite <- E.
  destruct (String.eqb (entry_text "level" e) lvl); reflexivity.
Qed.

(** X12: after initialization on well-formed entries, the query of the level
    ["ERROR"] written with the column [log_level] returns the records of
    the entries whose level is ["ERROR"], and only them, under the ids that
    they were given and in the order of loading. *)
Theorem select_log_level_returns_errors (fs : filesystem) :
  files_ok fs = true ->
  exists out db,
    create_logs_database fs = (out, Return db)
    /\ execute_query db "SELECT * FROM logs WHERE log_level = 'ERROR'"
       = Some (Return (records_where (has_level "ERROR") 1 (loaded_entries fs))).
Proof.
  intros Hok. rewrite (create_logs_database_ok fs Hok).
  do 2 eexists. split; [reflexivity|].
  rewrite select_log_level_error. do 2 f_equal.
  apply filter_records, loaded_entries_well_formed, Hok.
Qed.

Lemma select_log_level_returns_errors_witness :
  exists out db,
    create_logs_database sample_files = (out, Return db)
    /\ execute_query db "SELECT * FROM logs WHERE log_level = 'ERROR'"
       = Some (Return
                 [[SqlInt 1; SqlText "app-1"; SqlText "java.lang.OutOfMemoryError";
                   SqlText "ERROR"; SqlText "2024-01-15 10:30:00"];
                  [SqlInt 3; SqlText "app-2"; SqlText "SlowDown";
                   SqlText "ERROR"; SqlText "1999-12-31 23:59:59"]]).
Proof.
  exact (select_log_level_returns_errors sample_files eq_refl).
Defined.

End Acceptance.

(** ** Documents that are no arrays, and the lines printed *)

Section Documents.





(** X14: on files that are absent or arrays of well-formed entries,
    initialization prints four lines: for each of [oom.json], [disk.json]
    and [throttle.json], in this order, the warning when the file is absent
    and else the number of its entries, and then the total, which is the
    sum of these numbers. *)
Theorem printed_lines (fs : filesystem) :
  files_ok fs = true ->
  fst (create_logs_database fs)
  = [report_line fs "oom.json"; report_line fs "disk.json"; report_line fs "throttle.json";
     total_line (List.length (file_entries (fs "oom.json"))
                 + List.length (file_entries (fs "disk.json"))
                 + List.length (file_entries (fs "throttle.json")))].
Proof.
  intros Hok. rewrite (create_logs_database_ok fs Hok). cbn [fst].
  unfold print, loaded_entries, total_line. unfold json_files. cbn [map flat_map List.app].
  rewrite !length_app. cbn [List.length]. rewrite Nat.add_0_r, Nat.add_assoc. reflexivity.
Qed.

Lemma printed_lines_witness :
  fst (create_logs_database sample_files)
  = ["Loaded 2 entries from oom.json"; "Warning: disk.json not found, skipping...";
     "Loaded 1 entries from throttle.json";
     "Total: 3 log entries loaded into in-memory database"].
Proof.
  exact (printed_lines sample_files eq_refl).
Defined.

End Documents.

(** ** When initialization returns *)

Section Success.






End Success.
